(** * hipchat: a client for the HipChat v1 REST API

    A shallow embedding of the Go package [hipchat] and the properties
    of its request construction and response decoding.

    The package is in the source tree in three revisions:
    - [src/hipchat.go]: the first revision, with [PostMessage] only
      (module [Rev0]);
    - [src/unnamed/part_000]: the first [RoomList], built on the
      package-level constant [baseURL] (module [Rev1]);
    - [src/unnamed/part_001]: the current revision with [BaseURL],
      [AuthTest], [RoomHistory], [RoomList] and [getError]
      (module [Rev2]).

    Strings are Go strings, byte sequences: [string] with one [ascii]
    per byte.  [int] is the 64-bit Go [int], carried by [Z].  A method
    with a pointer receiver is a function of the state [World]: the
    [Client] behind the pointer and the trace of HTTP calls.

    What the package calls in the Go library is modelled as far as the
    package depends on it: [url.QueryEscape] and [url.Values];
    [json.Unmarshal], with the JSON grammar of its scanner, the
    unquoting of string literals and the rules by which a value is
    stored into the struct types of the package; [http.Get] and
    [http.PostForm], answered by a function [server] from the request to
    the reply.  The errors of encoding/json keep their kind and not
    their message or offset. *)

From Stdlib Require Import ZArith NArith Ascii String List Bool Lia.
From stdpp Require Import base option list strings gmap fin_maps.

Local Open Scope string_scope.
Local Open Scope N_scope.

(** ** Bytes *)

Definition byte_val (c : ascii) : N := N_of_ascii c.

Definition in_range (lo hi : ascii) (c : ascii) : bool :=
  (byte_val lo <=? byte_val c) && (byte_val c <=? byte_val hi).

Definition len (s : string) : nat := String.length s.

(** ** net/url *)

Module url.

(** [url.Values] is [map[string][]string]. *)
Abbreviation Values := (gmap string (list string)).

(** [v[key] = append(v[key], value)] *)
Definition Add (key value : string) (v : Values) : Values :=
  <[key := (default [] (v !! key) ++ [value])%list]> v.

(** [shouldEscape(c, encodeQueryComponent)] *)
Definition shouldEscape (c : ascii) : bool :=
  if in_range "a" "z" c || in_range "A" "Z" c || in_range "0" "9" c then false
  else if Ascii.eqb c "-" || Ascii.eqb c "_" || Ascii.eqb c "." || Ascii.eqb c "~"
  then false
  else true.

Definition upperhex (n : N) : ascii :=
  match String.get (N.to_nat n) "0123456789ABCDEF" with
  | Some c => c
  | None => "0"%char
  end.

(** [escape(s, encodeQueryComponent)] *)
Fixpoint QueryEscape (s : string) : string :=
  match s with
  | EmptyString => EmptyString
  | String c t =>
      if Ascii.eqb c " " then String "+" (QueryEscape t)
      else if shouldEscape c then
        String "%" (String (upperhex (N.shiftr (byte_val c) 4))
                      (String (upperhex (N.land (byte_val c) 15)) (QueryEscape t)))
      else String c (QueryEscape t)
  end.

End url.

(** ** unicode/utf8 and unicode/utf16 *)

Module utf8.

Definition RuneError : N := 0xFFFD.

Definition byte_of (n : N) : ascii := ascii_of_N n.

Definition is_cont (c : ascii) : bool :=
  (0x80 <=? byte_val c) && (byte_val c <=? 0xBF).

Definition between (lo hi : N) (c : ascii) : bool :=
  (lo <=? byte_val c) && (byte_val c <=? hi).

(** Width of the well-formed encoding at the head of [s]; [0%nat] when
    [utf8.DecodeRune] answers [(RuneError, 1)]. *)
Definition rune_len (s : string) : nat :=
  match s with
  | EmptyString => 0%nat
  | String c0 t =>
      let b0 := byte_val c0 in
      if b0 <? 0x80 then 1%nat
      else if (0xC2 <=? b0) && (b0 <=? 0xDF) then
        match t with
        | String c1 _ => if is_cont c1 then 2%nat else 0%nat
        | _ => 0%nat
        end
      else if (0xE0 <=? b0) && (b0 <=? 0xEF) then
        match t with
        | String c1 (String c2 _) =>
            let lo := if b0 =? 0xE0 then 0xA0 else 0x80 in
            let hi := if b0 =? 0xED then 0x9F else 0xBF in
            if between lo hi c1 && is_cont c2 then 3%nat else 0%nat
        | _ => 0%nat
        end
      else if (0xF0 <=? b0) && (b0 <=? 0xF4) then
        match t with
        | String c1 (String c2 (String c3 _)) =>
            let lo := if b0 =? 0xF0 then 0x90 else 0x80 in
            let hi := if b0 =? 0xF4 then 0x8F else 0xBF in
            if between lo hi c1 && is_cont c2 && is_cont c3 then 4%nat else 0%nat
        | _ => 0%nat
        end
      else 0%nat
  end.

Definition cont_byte (r : N) (shift : N) : ascii :=
  byte_of (N.lor 0x80 (N.land (N.shiftr r shift) 0x3F)).

(** [utf8.EncodeRune] *)
Definition EncodeRune (r : N) : string :=
  let r := if (0x10FFFF <? r) || ((0xD800 <=? r) && (r <=? 0xDFFF))
           then RuneError else r in
  if r <? 0x80 then String (byte_of r) EmptyString
  else if r <? 0x800 then
    String (byte_of (N.lor 0xC0 (N.shiftr r 6))) (String (cont_byte r 0) EmptyString)
  else if r <? 0x10000 then
    String (byte_of (N.lor 0xE0 (N.shiftr r 12)))
      (String (cont_byte r 6) (String (cont_byte r 0) EmptyString))
  else
    String (byte_of (N.lor 0xF0 (N.shiftr r 18)))
      (String (cont_byte r 12) (String (cont_byte r 6) (String (cont_byte r 0) EmptyString))).

End utf8.

Module utf16.

Definition IsSurrogate (r : N) : bool := (0xD800 <=? r) && (r <? 0xE000).

(** [utf16.DecodeRune]; [None] stands for the replacement rune. *)
Definition DecodeRune (r1 r2 : N) : option N :=
  if (0xD800 <=? r1) && (r1 <? 0xDC00) && (0xDC00 <=? r2) && (r2 <? 0xE000)
  then Some (N.lor (N.shiftl (r1 - 0xD800) 10) (r2 - 0xDC00) + 0x10000)
  else None.

End utf16.

(** ** encoding/json: syntax *)

Module json.

Unset Elimination Schemes.
Inductive value : Type :=
| Null
| Bool (b : bool)
| Number (lit : string)
| Str (s : string)
| Array (elems : list value)
| Object (members : list (string * value)).
Set Elimination Schemes.

Definition quote : ascii := "034"%char.
Definition backslash : ascii := "092"%char.

Definition is_space (c : ascii) : bool :=
  Ascii.eqb c " " || Ascii.eqb c "009" || Ascii.eqb c "010" || Ascii.eqb c "013".

Fixpoint skip_space (s : string) : string :=
  match s with
  | String c t => if is_space c then skip_space t else s
  | EmptyString => EmptyString
  end.

Definition is_digit (c : ascii) : bool := in_range "0" "9" c.

Definition is_hex (c : ascii) : bool :=
  in_range "0" "9" c || in_range "a" "f" c || in_range "A" "F" c.

Definition hex_val (c : ascii) : N :=
  if in_range "0" "9" c then byte_val c - byte_val "0"
  else if in_range "a" "f" c then byte_val c - byte_val "a" + 10
  else byte_val c - byte_val "A" + 10.

Definition is_simple_escape (c : ascii) : bool :=
  Ascii.eqb c quote || Ascii.eqb c backslash || Ascii.eqb c "/" || Ascii.eqb c "b"
  || Ascii.eqb c "f" || Ascii.eqb c "n" || Ascii.eqb c "r" || Ascii.eqb c "t".

(** The scanner inside a string literal, entered after the opening
    quote: the raw text up to the closing quote and what follows it. *)
Fixpoint scan_string (s : string) : option (string * string) :=
  match s with
  | EmptyString => None
  | String c t =>
      if Ascii.eqb c quote then Some (EmptyString, t)
      else if Ascii.eqb c backslash then
        match t with
        | EmptyString => None
        | String e t1 =>
            if is_simple_escape e then
              match scan_string t1 with
              | Some (raw, rest) => Some (String c (String e raw), rest)
              | None => None
              end
            else if Ascii.eqb e "u" then
              match t1 with
              | String h1 (String h2 (String h3 (String h4 t5))) =>
                  if is_hex h1 && is_hex h2 && is_hex h3 && is_hex h4 then
                    match scan_string t5 with
                    | Some (raw, rest) =>
                        Some (String c (String e (String h1 (String h2
                                (String h3 (String h4 raw))))), rest)
                    | None => None
                    end
                  else None
              | _ => None
              end
            else None
        end
      else if byte_val c <? 0x20 then None
      else
        match scan_string t with
        | Some (raw, rest) => Some (String c raw, rest)
        | None => None
        end
  end.

(** [getu4]: the code unit of a [\uXXXX] escape at the head of [s]. *)
Definition getu4 (s : string) : option N :=
  match s with
  | String b (String u (String h1 (String h2 (String h3 (String h4 _))))) =>
      if Ascii.eqb b backslash && Ascii.eqb u "u"
         && is_hex h1 && is_hex h2 && is_hex h3 && is_hex h4
      then Some (hex_val h1 * 4096 + hex_val h2 * 256 + hex_val h3 * 16 + hex_val h4)
      else None
  | _ => None
  end.

Definition escaped (e : ascii) : ascii :=
  if Ascii.eqb e "b" then "008"%char
  else if Ascii.eqb e "f" then "012"%char
  else if Ascii.eqb e "n" then "010"%char
  else if Ascii.eqb e "r" then "013"%char
  else if Ascii.eqb e "t" then "009"%char
  else e.

Fixpoint string_drop (n : nat) (s : string) : string :=
  match n, s with
  | S k, String _ t => string_drop k t
  | _, _ => s
  end.

(** [unquote] on the raw text of a scanned literal.  [skip] bytes are
    dropped and then [copy] bytes are taken as they are before the next
    byte is looked at: an escape and a well-formed multi-byte rune are
    consumed whole, a byte that starts no well-formed rune becomes
    U+FFFD. *)
Fixpoint unquote_from (skip copy : nat) (s : string) : string :=
  match s with
  | EmptyString => EmptyString
  | String c t =>
      match skip, copy with
      | S k, _ => unquote_from k copy t
      | O, S k => String c (unquote_from O k t)
      | O, O =>
          if Ascii.eqb c backslash then
            match t with
            | EmptyString => EmptyString
            | String e _ =>
                if Ascii.eqb e "u" then
                  match getu4 s with
                  | None => EmptyString
                  | Some rr =>
                      if utf16.IsSurrogate rr then
                        match getu4 (string_drop 6 s) ≫= utf16.DecodeRune rr with
                        | Some dec => utf8.EncodeRune dec ++ unquote_from 11 0 t
                        | None => utf8.EncodeRune utf8.RuneError ++ unquote_from 5 0 t
                        end
                      else utf8.EncodeRune rr ++ unquote_from 5 0 t
                  end
                else String (escaped e) (unquote_from 1 0 t)
            end
          else if byte_val c <? 0x80 then String c (unquote_from 0 0 t)
          else
            match utf8.rune_len s with
            | O => utf8.EncodeRune utf8.RuneError ++ unquote_from 0 0 t
            | S k => String c (unquote_from 0 k t)
            end
      end
  end.

Definition unquote (raw : string) : string := unquote_from 0 0 raw.

Fixpoint digits (s : string) : string * string :=
  match s with
  | String c t =>
      if is_digit c then let (ds, rest) := digits t in (String c ds, rest)
      else (EmptyString, s)
  | EmptyString => (EmptyString, EmptyString)
  end.

Definition is_empty (s : string) : bool :=
  match s with EmptyString => true | _ => false end.

(** Integer part of a number: [0], or a non-zero digit and more digits. *)
Definition scan_int (s : string) : option (string * string) :=
  match s with
  | String c t =>
      if Ascii.eqb c "0" then Some (String c EmptyString, t)
      else if in_range "1" "9" c then
        let (ds, rest) := digits t in Some (String c ds, rest)
      else None
  | EmptyString => None
  end.

Definition scan_frac (s : string) : option (string * string) :=
  match s with
  | String c t =>
      if Ascii.eqb c "." then
        let (ds, rest) := digits t in
        if is_empty ds then None else Some (String c ds, rest)
      else Some (EmptyString, s)
  | EmptyString => Some (EmptyString, s)
  end.

(** An optional sign in [signs] at the head of [s]. *)
Definition take_sign (signs : list ascii) (s : string) : string * string :=
  match s with
  | String g t =>
      if existsb (Ascii.eqb g) signs then (String g EmptyString, t)
      else (EmptyString, s)
  | EmptyString => (EmptyString, s)
  end.

Definition scan_exp (s : string) : option (string * string) :=
  match s with
  | String c t =>
      if Ascii.eqb c "e" || Ascii.eqb c "E" then
        let (sign, t1) := take_sign ["+"; "-"]%char t in
        let (ds, rest) := digits t1 in
        if is_empty ds then None else Some (String c (sign ++ ds), rest)
      else Some (EmptyString, s)
  | EmptyString => Some (EmptyString, s)
  end.

(** A number literal at the head of [s]: its text and what follows. *)
Definition scan_number (s : string) : option (string * string) :=
  let (sign, s1) := take_sign ["-"]%char s in
  '(i, s2) ← scan_int s1;
  '(f, s3) ← scan_frac s2;
  '(e, s4) ← scan_exp s3;
  Some (sign ++ i ++ f ++ e, s4).

Fixpoint strip_prefix (p s : string) : option string :=
  match p, s with
  | EmptyString, _ => Some s
  | String a p', String b s' => if Ascii.eqb a b then strip_prefix p' s' else None
  | String _ _, EmptyString => None
  end.

Inductive parsed (A : Type) : Type :=
| Parsed (a : A) (rest : string)
| Invalid
| OutOfFuel.
Arguments Parsed {A} a rest.
Arguments Invalid {A}.
Arguments OutOfFuel {A}.

(** [maxNestingDepth]: the scanner refuses to open a container inside
    this many open ones. *)
Definition maxNestingDepth : N := 10000.

(** One JSON value at the head of [s], inside [depth] open arrays and
    objects.  [parse_elems] and [parse_members] stand at the start of an
    array element and of an object key, with the elements and members
    read so far. *)
Fixpoint parse_value (fuel : nat) (depth : N) (s : string) : parsed value :=
  match fuel with
  | O => OutOfFuel
  | S n =>
      match s with
      | EmptyString => Invalid
      | String c t =>
          if Ascii.eqb c "{" then
            if maxNestingDepth <=? depth then Invalid
            else
              match skip_space t with
              | String c1 t1 =>
                  if Ascii.eqb c1 "}" then Parsed (Object []) t1
                  else parse_members n (depth + 1) (skip_space t) []
              | EmptyString => Invalid
              end
          else if Ascii.eqb c "[" then
            if maxNestingDepth <=? depth then Invalid
            else
              match skip_space t with
              | String c1 t1 =>
                  if Ascii.eqb c1 "]" then Parsed (Array []) t1
                  else parse_elems n (depth + 1) (skip_space t) []
              | EmptyString => Invalid
              end
          else if Ascii.eqb c quote then
            match scan_string t with
            | Some (raw, rest) => Parsed (Str (unquote raw)) rest
            | None => Invalid
            end
          else if Ascii.eqb c "-" || is_digit c then
            match scan_number s with
            | Some (lit, rest) => Parsed (Number lit) rest
            | None => Invalid
            end
          else if Ascii.eqb c "t" then
            match strip_prefix "true" s with
            | Some rest => Parsed (Bool true) rest
            | None => Invalid
            end
          else if Ascii.eqb c "f" then
            match strip_prefix "false" s with
            | Some rest => Parsed (Bool false) rest
            | None => Invalid
            end
          else if Ascii.eqb c "n" then
            match strip_prefix "null" s with
            | Some rest => Parsed Null rest
            | None => Invalid
            end
          else Invalid
      end
  end
with parse_elems (fuel : nat) (depth : N) (s : string) (acc : list value)
  : parsed value :=
  match fuel with
  | O => OutOfFuel
  | S n =>
      match parse_value n depth s with
      | Parsed v rest =>
          match skip_space rest with
          | String c t =>
              if Ascii.eqb c "," then parse_elems n depth (skip_space t) (acc ++ [v])
              else if Ascii.eqb c "]" then Parsed (Array (acc ++ [v])) t
              else Invalid
          | EmptyString => Invalid
          end
      | Invalid => Invalid
      | OutOfFuel => OutOfFuel
      end
  end
with parse_members (fuel : nat) (depth : N) (s : string) (acc : list (string * value))
  : parsed value :=
  match fuel with
  | O => OutOfFuel
  | S n =>
      match s with
      | EmptyString => Invalid
      | String q t =>
          if Ascii.eqb q quote then
            match scan_string t with
            | None => Invalid
            | Some (raw, rest) =>
                match skip_space rest with
                | EmptyString => Invalid
                | String c t1 =>
                    if Ascii.eqb c ":" then
                      match parse_value n depth (skip_space t1) with
                      | Parsed v rest1 =>
                          match skip_space rest1 with
                          | String d t2 =>
                              if Ascii.eqb d "," then
                                parse_members n depth (skip_space t2)
                                  (acc ++ [(unquote raw, v)])
                              else if Ascii.eqb d "}" then
                                Parsed (Object (acc ++ [(unquote raw, v)])) t2
                              else Invalid
                          | EmptyString => Invalid
                          end
                      | Invalid => Invalid
                      | OutOfFuel => OutOfFuel
                      end
                    else Invalid
                end
            end
          else Invalid
      end
  end.

(** [checkValid] and the scan of the whole input: one value, with
    white space around it and nothing else. *)
Definition parse (data : string) : option value :=
  match parse_value (2 * len data + 1) 0 (skip_space data) with
  | Parsed v rest => if is_empty (skip_space rest) then Some v else None
  | Invalid => None
  | OutOfFuel => None
  end.

(** ** encoding/json: decoding into Go values *)

(** The errors of [json.Unmarshal].  A [*SyntaxError] is kept without
    its message and offset, an [*UnmarshalTypeError] with the JSON kind
    it met ([Value]) and the name of the Go type it was to fill. *)
Inductive error : Type :=
| SyntaxError
| UnmarshalTypeError (Value : string) (Type_ : string).

(** [d.saveError]: the first error is the one reported. *)
Definition saveError (saved : option error) (e : error) : option error :=
  match saved with
  | Some _ => saved
  | None => Some e
  end.

Definition kind_name (j : value) : string :=
  match j with
  | Null => "null"
  | Bool _ => "bool"
  | Number _ => "number"
  | Str _ => "string"
  | Array _ => "array"
  | Object _ => "object"
  end.

(** What the decoder derives for a Go type by reflection: the zero
    value, the type's name, and how a JSON value is stored into a
    variable of the type that holds [v]. *)
Class Target (A : Type) : Type := {
  zero : A;
  type_name : string;
  store : value -> A -> option error -> A * option error
}.

Definition mismatch {A : Type} (ty : string) (j : value) (v : A) (saved : option error)
  : A * option error :=
  (v, saveError saved (UnmarshalTypeError (kind_name j) ty)).

Definition store_string (j : value) (v : string) (saved : option error)
  : string * option error :=
  match j with
  | Null => (v, saved)
  | Str s => (s, saved)
  | _ => mismatch "string" j v saved
  end.

Definition store_bool (j : value) (v : bool) (saved : option error)
  : bool * option error :=
  match j with
  | Null => (v, saved)
  | Bool b => (b, saved)
  | _ => mismatch "bool" j v saved
  end.

Fixpoint digits_val (s : string) (acc : Z) : option Z :=
  match s with
  | EmptyString => Some acc
  | String c t =>
      if is_digit c
      then digits_val t (acc * 10 + Z.of_N (byte_val c - byte_val "0"))%Z
      else None
  end.

(** [strconv.ParseInt(s, 10, 64)] *)
Definition ParseInt (s : string) : option Z :=
  let (neg, ds) :=
    match s with
    | String c t =>
        if Ascii.eqb c "-" then (true, t)
        else if Ascii.eqb c "+" then (false, t)
        else (false, s)
    | EmptyString => (false, s)
    end in
  if is_empty ds then None
  else
    match digits_val ds 0 with
    | Some n =>
        let z := if neg then (- n)%Z else n in
        if ((- 2 ^ 63 <=? z) && (z <? 2 ^ 63))%Z then Some z else None
    | None => None
    end.

Definition store_int (j : value) (v : Z) (saved : option error) : Z * option error :=
  match j with
  | Null => (v, saved)
  | Number lit =>
      match ParseInt lit with
      | Some n => (n, saved)
      | None => (v, saveError saved (UnmarshalTypeError ("number " ++ lit) "int"))
      end
  | _ => mismatch "int" j v saved
  end.

#[global] Instance string_Target : Target string :=
  {| zero := EmptyString; type_name := "string"; store := store_string |}.
#[global] Instance bool_Target : Target bool :=
  {| zero := false; type_name := "bool"; store := store_bool |}.
#[global] Instance int_Target : Target Z :=
  {| zero := 0%Z; type_name := "int"; store := store_int |}.

(** A pointer [*A]: [null] makes it nil, any other value is stored into
    what it points to, allocated first when it is nil. *)
Definition store_ptr {A : Type} `{Target A} (j : value) (p : option A)
    (saved : option error) : option A * option error :=
  match j with
  | Null => (None, saved)
  | _ => let (x, saved') := store j (default zero p) saved in (Some x, saved')
  end.

#[global] Instance ptr_Target {A : Type} `{Target A} : Target (option A) :=
  {| zero := None; type_name := "*" ++ type_name (A := A); store := store_ptr |}.

(** A slice [[]A]: the elements in use and, after them, the elements
    that the backing array still holds beyond the length. *)
Record slice (A : Type) : Type := { elems : list A; spare : list A }.
Arguments elems {A} s.
Arguments spare {A} s.

Definition nil_slice {A : Type} : slice A := {| elems := []; spare := [] |}.

(** Element [i] of the array is stored into element [i] of the backing
    array as it is, and into a zero value beyond it. *)
Fixpoint store_elems {A : Type} `{Target A} (es : list value) (backing : list A)
    (saved : option error) : list A * option error :=
  match es with
  | [] => ([], saved)
  | e :: es' =>
      let (x, saved1) := store e (hd zero backing) saved in
      let (xs, saved2) := store_elems es' (tl backing) saved1 in
      (x :: xs, saved2)
  end.

Definition store_slice {A : Type} `{Target A} (j : value) (v : slice A)
    (saved : option error) : slice A * option error :=
  match j with
  | Null => (nil_slice, saved)
  | Array es =>
      let backing := (elems v ++ spare v)%list in
      let (xs, saved') := store_elems es backing saved in
      match es with
      | [] => (nil_slice, saved')
      | _ => ({| elems := xs; spare := drop (length es) backing |}, saved')
      end
  | _ => mismatch ("[]" ++ type_name (A := A)) j v saved
  end.

#[global] Instance slice_Target {A : Type} `{Target A} : Target (slice A) :=
  {| zero := nil_slice; type_name := "[]" ++ type_name (A := A); store := store_slice |}.

(** Key folding: the upper case of the ASCII letters, with the two
    runes outside ASCII that fold onto an ASCII letter, U+017F onto S
    and U+212A onto K.  On the ASCII names of struct fields, equality
    of the folded texts is [bytes.EqualFold]. *)
Fixpoint foldName (s : string) : string :=
  match s with
  | EmptyString => EmptyString
  | String c t =>
      if in_range "a" "z" c then String (ascii_of_N (byte_val c - 32)) (foldName t)
      else
        match t with
        | String c1 t1 =>
            if (byte_val c =? 0xC5) && (byte_val c1 =? 0xBF) then String "S" (foldName t1)
            else
              match t1 with
              | String c2 t2 =>
                  if (byte_val c =? 0xE2) && (byte_val c1 =? 0x84) && (byte_val c2 =? 0xAA)
                  then String "K" (foldName t2)
                  else String c (foldName t)
              | EmptyString => String c (foldName t)
              end
        | EmptyString => String c EmptyString
        end
  end.

Definition equalFold (name key : string) : bool :=
  String.eqb (foldName name) (foldName key).

(** A struct: [null] leaves it as it is, an object stores its members
    in turn through [field] (which finds the field of a key, and
    ignores a key that names none), anything else is a type error. *)
Definition store_struct {A : Type} (ty : string)
    (field : string -> value -> A -> option error -> A * option error)
    (j : value) (v : A) (saved : option error) : A * option error :=
  match j with
  | Null => (v, saved)
  | Object members =>
      fold_left (fun st kv => field (fst kv) (snd kv) (fst st) (snd st)) members (v, saved)
  | _ => mismatch ty j v saved
  end.

(** [json.Unmarshal(data, &v)]: the content of [v] afterwards, and the
    error. *)
Definition Unmarshal {A : Type} `{Target A} (data : string) (v : A) : A * option error :=
  match parse data with
  | None => (v, Some SyntaxError)
  | Some j => store j v None
  end.

End json.

(** ** net/http, as far as the package uses it *)

Module http.

Definition StatusOK : Z := 200.

(** The two calls the package makes. *)
Inductive request : Type :=
| Get (uri : string)
| PostForm (uri : string) (data : url.Values).

(** What comes back from a call followed by [ioutil.ReadAll] on the
    body: the call fails, or the body cannot be read, or there is a
    status code and a body. *)
Inductive reply : Type :=
| RoundTripError (text : string)
| ReadError (StatusCode : Z) (text : string)
| Response (StatusCode : Z) (body : string).

End http.

(** ** The state a method runs in

    The [Client] behind the receiver pointer and the calls made so far.
    A method is a function from this state to its results and the state
    it leaves. *)

Record World (C : Type) : Type := { self : C; trace : list http.request }.
Arguments self {C} w.
Arguments trace {C} w.

Definition Go (C A : Type) : Type := World C -> A * World C.

#[export] Instance Go_ret {C : Type} : MRet (Go C) := fun A a w => (a, w).

#[export] Instance Go_bind {C : Type} : MBind (Go C) :=
  fun A B k m w => let (a, w') := m w in k a w'.

Definition receiver {C : Type} : Go C C := fun w => (self w, w).

Definition assign {C : Type} (c : C) : Go C unit :=
  fun w => (tt, {| self := c; trace := trace w |}).

(** A call is recorded and answered by the server. *)
Definition call {C : Type} (server : http.request -> http.reply) (r : http.request)
  : Go C http.reply :=
  fun w => (server r, {| self := self w; trace := trace w ++ [r] |}).

(** ** Package hipchat: types shared by the revisions *)

Record HipchatError : Type := { Code : Z; Type_ : string; Message : string }.

(** The values of the interface [error] that the package returns. *)
Inductive error : Type :=
| errors_New (text : string)
| HipchatError_value (e : HipchatError)
| HipchatError_pointer (e : HipchatError)
| json_error (e : json.error)
| net_error (text : string).

(** The method [Error()] of each; [json_text] is the text that
    encoding/json gives to its errors. *)
Definition Error (json_text : json.error -> string) (e : error) : string :=
  match e with
  | errors_New text => text
  | HipchatError_value h => Message h
  | HipchatError_pointer h => Message h
  | json_error j => json_text j
  | net_error text => text
  end.

Definition HipchatError_field (key : string) (j : json.value) (v : HipchatError)
    (saved : option json.error) : HipchatError * option json.error :=
  if json.equalFold "Code" key then
    let (x, saved') := json.store j (Code v) saved in
    ({| Code := x; Type_ := Type_ v; Message := Message v |}, saved')
  else if json.equalFold "Type" key then
    let (x, saved') := json.store j (Type_ v) saved in
    ({| Code := Code v; Type_ := x; Message := Message v |}, saved')
  else if json.equalFold "Message" key then
    let (x, saved') := json.store j (Message v) saved in
    ({| Code := Code v; Type_ := Type_ v; Message := x |}, saved')
  else (v, saved).

#[export] Instance HipchatError_Target : json.Target HipchatError :=
  {| json.zero := {| Code := 0; Type_ := EmptyString; Message := EmptyString |};
     json.type_name := "hipchat.HipchatError";
     json.store := json.store_struct "hipchat.HipchatError" HipchatError_field |}.

(** [type ErrorResponse struct { Error HipchatError }] *)
Record ErrorResponse : Type := { ErrorResponse_Error : HipchatError }.

Definition ErrorResponse_field (key : string) (j : json.value) (v : ErrorResponse)
    (saved : option json.error) : ErrorResponse * option json.error :=
  if json.equalFold "Error" key then
    let (x, saved') := json.store j (ErrorResponse_Error v) saved in
    ({| ErrorResponse_Error := x |}, saved')
  else (v, saved).

#[export] Instance ErrorResponse_Target : json.Target ErrorResponse :=
  {| json.zero := {| ErrorResponse_Error := json.zero |};
     json.type_name := "hipchat.ErrorResponse";
     json.store := json.store_struct "hipchat.ErrorResponse" ErrorResponse_field |}.

(** [struct{ Status string }] *)
Record StatusResponse : Type := { Status : string }.

Definition StatusResponse_field (key : string) (j : json.value) (v : StatusResponse)
    (saved : option json.error) : StatusResponse * option json.error :=
  if json.equalFold "Status" key then
    let (x, saved') := json.store j (Status v) saved in ({| Status := x |}, saved')
  else (v, saved).

#[export] Instance StatusResponse_Target : json.Target StatusResponse :=
  {| json.zero := {| Status := EmptyString |};
     json.type_name := "struct { Status string }";
     json.store := json.store_struct "struct { Status string }" StatusResponse_field |}.

Record Room : Type := {
  RoomId : Z;
  Name : string;
  Topic : string;
  LastActive : Z;
  Created : Z;
  Archived : bool;
  Private : bool;
  OwnerUserId : Z;
  XMPPJabberId : string
}.

Definition Room_field (key : string) (j : json.value) (v : Room)
    (saved : option json.error) : Room * option json.error :=
  let '{| RoomId := a; Name := b; Topic := c; LastActive := d; Created := e;
          Archived := f; Private := g; OwnerUserId := h; XMPPJabberId := i |} := v in
  if json.equalFold "room_id" key then
    let (x, saved') := json.store j a saved in
    ({| RoomId := x; Name := b; Topic := c; LastActive := d; Created := e;
        Archived := f; Private := g; OwnerUserId := h; XMPPJabberId := i |}, saved')
  else if json.equalFold "Name" key then
    let (x, saved') := json.store j b saved in
    ({| RoomId := a; Name := x; Topic := c; LastActive := d; Created := e;
        Archived := f; Private := g; OwnerUserId := h; XMPPJabberId := i |}, saved')
  else if json.equalFold "Topic" key then
    let (x, saved') := json.store j c saved in
    ({| RoomId := a; Name := b; Topic := x; LastActive := d; Created := e;
        Archived := f; Private := g; OwnerUserId := h; XMPPJabberId := i |}, saved')
  else if json.equalFold "last_active" key then
    let (x, saved') := json.store j d saved in
    ({| RoomId := a; Name := b; Topic := c; LastActive := x; Created := e;
        Archived := f; Private := g; OwnerUserId := h; XMPPJabberId := i |}, saved')
  else if json.equalFold "Created" key then
    let (x, saved') := json.store j e saved in
    ({| RoomId := a; Name := b; Topic := c; LastActive := d; Created := x;
        Archived := f; Private := g; OwnerUserId := h; XMPPJabberId := i |}, saved')
  else if json.equalFold "is_archived" key then
    let (x, saved') := json.store j f saved in
    ({| RoomId := a; Name := b; Topic := c; LastActive := d; Created := e;
        Archived := x; Private := g; OwnerUserId := h; XMPPJabberId := i |}, saved')
  else if json.equalFold "is_private" key then
    let (x, saved') := json.store j g saved in
    ({| RoomId := a; Name := b; Topic := c; LastActive := d; Created := e;
        Archived := f; Private := x; OwnerUserId := h; XMPPJabberId := i |}, saved')
  else if json.equalFold "owner_user_id" key then
    let (x, saved') := json.store j h saved in
    ({| RoomId := a; Name := b; Topic := c; LastActive := d; Created := e;
        Archived := f; Private := g; OwnerUserId := x; XMPPJabberId := i |}, saved')
  else if json.equalFold "xmpp_jid" key then
    let (x, saved') := json.store j i saved in
    ({| RoomId := a; Name := b; Topic := c; LastActive := d; Created := e;
        Archived := f; Private := g; OwnerUserId := h; XMPPJabberId := x |}, saved')
  else (v, saved).

#[export] Instance Room_Target : json.Target Room :=
  {| json.zero := {| RoomId := 0; Name := EmptyString; Topic := EmptyString;
                     LastActive := 0; Created := 0; Archived := false;
                     Private := false; OwnerUserId := 0; XMPPJabberId := EmptyString |};
     json.type_name := "hipchat.Room";
     json.store := json.store_struct "hipchat.Room" Room_field |}.

(** [struct{ Rooms []Room }] *)
Record RoomsResponse : Type := { Rooms : json.slice Room }.

Definition RoomsResponse_field (key : string) (j : json.value) (v : RoomsResponse)
    (saved : option json.error) : RoomsResponse * option json.error :=
  if json.equalFold "Rooms" key then
    let (x, saved') := json.store j (Rooms v) saved in ({| Rooms := x |}, saved')
  else (v, saved).

#[export] Instance RoomsResponse_Target : json.Target RoomsResponse :=
  {| json.zero := {| Rooms := json.nil_slice |};
     json.type_name := "struct { Rooms []hipchat.Room }";
     json.store := json.store_struct "struct { Rooms []hipchat.Room }" RoomsResponse_field |}.

(** [type AuthResponse struct { Success, Error *HipchatError }] *)
Record AuthResponse : Type := {
  Success : option HipchatError;
  AuthResponse_Error : option HipchatError
}.

Definition AuthResponse_field (key : string) (j : json.value) (v : AuthResponse)
    (saved : option json.error) : AuthResponse * option json.error :=
  if json.equalFold "Success" key then
    let (x, saved') := json.store j (Success v) saved in
    ({| Success := x; AuthResponse_Error := AuthResponse_Error v |}, saved')
  else if json.equalFold "Error" key then
    let (x, saved') := json.store j (AuthResponse_Error v) saved in
    ({| Success := Success v; AuthResponse_Error := x |}, saved')
  else (v, saved).

#[export] Instance AuthResponse_Target : json.Target AuthResponse :=
  {| json.zero := {| Success := None; AuthResponse_Error := None |};
     json.type_name := "hipchat.AuthResponse";
     json.store := json.store_struct "hipchat.AuthResponse" AuthResponse_field |}.

Definition ResponseStatusSent : string := "sent".

Definition required_fields_text : string :=
  "The RoomId, From, and Message fields are all required.".

(** ** src/hipchat.go: the first revision *)

Module Rev0.

Definition baseURL : string := "https://api.hipchat.com/v1".

Record MessageRequest : Type := {
  RoomId : string;
  From : string;
  Message : string;
  MessageFormat : string;
  Notify : bool;
  Color : string
}.

(** [type MessageResponse struct { Status string }] *)
Record MessageResponse : Type := { Status : string }.

Definition MessageResponse_field (key : string) (j : json.value) (v : MessageResponse)
    (saved : option json.error) : MessageResponse * option json.error :=
  if json.equalFold "Status" key then
    let (x, saved') := json.store j (Status v) saved in ({| Status := x |}, saved')
  else (v, saved).

#[global] Instance MessageResponse_Target : json.Target MessageResponse :=
  {| json.zero := {| Status := EmptyString |};
     json.type_name := "hipchat.MessageResponse";
     json.store := json.store_struct "hipchat.MessageResponse" MessageResponse_field |}.

Record Client : Type := { AuthToken : string }.

Definition urlValuesFromRequest (req : MessageRequest) : url.Values * option error :=
  if (len (RoomId req) =? 0)%nat || (len (From req) =? 0)%nat
     || (len (Message req) =? 0)%nat
  then (∅, Some (errors_New required_fields_text))
  else
    let payload : url.Values :=
      <["room_id" := [RoomId req]]>
        (<["from" := [From req]]> (<["message" := [Message req]]> ∅)) in
    let payload := if Notify req then url.Add "notify" "1" payload else payload in
    let payload :=
      if (0 <? len (Color req))%nat then url.Add "color" (Color req) payload
      else payload in
    let payload :=
      if (0 <? len (MessageFormat req))%nat
      then url.Add "message_format" (MessageFormat req) payload
      else payload in
    (payload, None).

Definition PostMessage (server : http.request -> http.reply) (req : MessageRequest)
  : Go Client (option error) :=
  c ← receiver;
  let uri := baseURL ++ "/rooms/message?auth_token=" ++ AuthToken c in
  match urlValuesFromRequest req with
  | (_, Some err) => mret (Some err)
  | (payload, None) =>
      resp ← call server (http.PostForm uri payload);
      match resp with
      | http.RoundTripError err => mret (Some (net_error err))
      | http.ReadError _ err => mret (Some (net_error err))
      | http.Response _ body =>
          match json.Unmarshal body (json.zero : MessageResponse) with
          | (_, Some err) => mret (Some (json_error err))
          | (response, None) =>
              if negb (String.eqb (Status response) ResponseStatusSent)
              then mret (Some (errors_New
                     "PostMessage: response 'status' field was not 'sent'."))
              else mret None
          end
      end
  end.

End Rev0.

(** ** src/unnamed/part_000: the first RoomList

    It belongs to the revision whose [Client] has the one field
    [AuthToken] and whose base URL is the constant [baseURL]. *)

Module Rev1.

Definition RoomList (server : http.request -> http.reply)
  : Go Rev0.Client (list Room * option error) :=
  c ← receiver;
  let uri := Rev0.baseURL ++ "/rooms/list?auth_token="
             ++ url.QueryEscape (Rev0.AuthToken c) in
  resp ← call server (http.Get uri);
  match resp with
  | http.RoundTripError err => mret ([], Some (net_error err))
  | http.ReadError _ err => mret ([], Some (net_error err))
  | http.Response StatusCode body =>
      if negb (StatusCode =? 200)%Z then
        match json.Unmarshal body (json.zero : ErrorResponse) with
        | (_, Some err) => mret ([], Some (json_error err))
        | (errResp, None) =>
            mret ([], Some (errors_New (Message (ErrorResponse_Error errResp))))
        end
      else
        match json.Unmarshal body (json.zero : RoomsResponse) with
        | (_, Some err) => mret ([], Some (json_error err))
        | (roomsResp, None) => mret (json.elems (Rooms roomsResp), None)
        end
  end.

End Rev1.

(** ** src/unnamed/part_001: the current revision *)

Module Rev2.

Definition defaultBaseURL : string := "https://api.hipchat.com/v1".

Record MessageRequest : Type := {
  RoomId : string;
  From : string;
  Message : string;
  MessageFormat : string;
  Notify : bool;
  Color : string;
  AuthTest : bool
}.

Record Client : Type := { AuthToken : string; BaseURL : string }.

Definition NewClient (authToken : string) : Client :=
  {| AuthToken := authToken; BaseURL := defaultBaseURL |}.

Definition urlValuesFromMessageRequest (req : MessageRequest)
  : url.Values * option error :=
  if (len (RoomId req) =? 0)%nat || (len (From req) =? 0)%nat
     || (len (Message req) =? 0)%nat
  then (∅, Some (errors_New required_fields_text))
  else
    let payload : url.Values :=
      <["room_id" := [RoomId req]]>
        (<["from" := [From req]]> (<["message" := [Message req]]> ∅)) in
    let payload := if Notify req then url.Add "notify" "1" payload else payload in
    let payload :=
      if (0 <? len (Color req))%nat then url.Add "color" (Color req) payload
      else payload in
    let payload :=
      if (0 <? len (MessageFormat req))%nat
      then url.Add "message_format" (MessageFormat req) payload
      else payload in
    (payload, None).

(** [getError] unmarshals a HipChat error response from the request
    body and returns its error field.  [None] is the nil error. *)
Definition getError (body : string) : option error :=
  match json.Unmarshal body (json.zero : ErrorResponse) with
  | (_, Some err) => Some (json_error err)
  | (errResp, None) => Some (HipchatError_value (ErrorResponse_Error errResp))
  end.

Section Methods.

Variable server : http.request -> http.reply.

(** The type [Message] of the history is declared in a file that is
    not in the tree: it is any type the decoder can fill. *)
Context {Message_t : Type} `{Message_Target : json.Target Message_t}.

(** [struct{ Messages []Message }] *)
Record MessagesResponse : Type := { Messages : json.slice Message_t }.

Definition MessagesResponse_field (key : string) (j : json.value) (v : MessagesResponse)
    (saved : option json.error) : MessagesResponse * option json.error :=
  if json.equalFold "Messages" key then
    let (x, saved') := json.store j (Messages v) saved in ({| Messages := x |}, saved')
  else (v, saved).

#[local] Instance MessagesResponse_Target : json.Target MessagesResponse :=
  {| json.zero := {| Messages := json.nil_slice |};
     json.type_name := "struct { Messages []" ++ json.type_name (A := Message_t) ++ " }";
     json.store :=
       json.store_struct
         ("struct { Messages []" ++ json.type_name (A := Message_t) ++ " }")
         MessagesResponse_field |}.

Definition PostMessage (req : MessageRequest) : Go Client (option error) :=
  c ← receiver;
  (if (len (BaseURL c) =? 0)%nat
   then assign {| AuthToken := AuthToken c; BaseURL := defaultBaseURL |}
   else mret tt);;
  c ← receiver;
  let uri := BaseURL c ++ "/rooms/message?auth_token=" ++ url.QueryEscape (AuthToken c) in
  let uri := if AuthTest req then uri ++ "&auth_test=true" else uri in
  match urlValuesFromMessageRequest req with
  | (_, Some err) => mret (Some err)
  | (payload, None) =>
      resp ← call server (http.PostForm uri payload);
      match resp with
      | http.RoundTripError err => mret (Some (net_error err))
      | http.ReadError _ err => mret (Some (net_error err))
      | http.Response _ body =>
          if AuthTest req then
            match json.Unmarshal body (json.zero : AuthResponse) with
            | (_, Some err) => mret (Some (json_error err))
            | (msgResp, None) =>
                match AuthResponse_Error msgResp with
                | Some e => mret (Some (HipchatError_pointer e))
                | None => mret None
                end
            end
          else
            match json.Unmarshal body (json.zero : StatusResponse) with
            | (_, Some err) => mret (Some (json_error err))
            | (msgResp, None) =>
                if negb (String.eqb (Status msgResp) ResponseStatusSent)
                then mret (getError body)
                else mret None
            end
      end
  end.

Definition RoomHistory (id date tz : string)
  : Go Client (list Message_t * option error) :=
  c ← receiver;
  (if (len (BaseURL c) =? 0)%nat
   then assign {| AuthToken := AuthToken c; BaseURL := defaultBaseURL |}
   else mret tt);;
  c ← receiver;
  let uri := BaseURL c ++ "/rooms/history?auth_token=" ++ url.QueryEscape (AuthToken c)
             ++ "&room_id=" ++ url.QueryEscape id
             ++ "&date=" ++ url.QueryEscape date
             ++ "&timezone=" ++ url.QueryEscape tz in
  resp ← call server (http.Get uri);
  match resp with
  | http.RoundTripError err => mret ([], Some (net_error err))
  | http.ReadError _ err => mret ([], Some (net_error err))
  | http.Response StatusCode body =>
      if negb (StatusCode =? http.StatusOK)%Z then mret ([], getError body)
      else
        match json.Unmarshal body (json.zero : MessagesResponse) with
        | (_, Some err) => mret ([], Some (json_error err))
        | (msgResp, None) => mret (json.elems (Messages msgResp), None)
        end
  end.

Definition RoomList : Go Client (list Room * option error) :=
  c ← receiver;
  (if (len (BaseURL c) =? 0)%nat
   then assign {| AuthToken := AuthToken c; BaseURL := defaultBaseURL |}
   else mret tt);;
  c ← receiver;
  let uri := BaseURL c ++ "/rooms/list?auth_token=" ++ url.QueryEscape (AuthToken c) in
  resp ← call server (http.Get uri);
  match resp with
  | http.RoundTripError err => mret ([], Some (net_error err))
  | http.ReadError _ err => mret ([], Some (net_error err))
  | http.Response StatusCode body =>
      if negb (StatusCode =? http.StatusOK)%Z then mret ([], getError body)
      else
        match json.Unmarshal body (json.zero : RoomsResponse) with
        | (_, Some err) => mret ([], Some (json_error err))
        | (roomsResp, None) => mret (json.elems (Rooms roomsResp), None)
        end
  end.

End Methods.

#[global] Existing Instance MessagesResponse_Target.

End Rev2.

(** * Vocabulary of the statements *)

(** The call that a method run from [w] to [w'] has made, and the reply
    of the server to it. *)
Definition answered {C : Type} (server : http.request -> http.reply)
    (w w' : World C) (rep : http.reply) : Prop :=
  exists r, trace w' = (trace w ++ [r])%list /\ server r = rep.

(** The required fields of a request: one is empty, none is. *)
Definition required_missing (req : Rev2.MessageRequest) : Prop :=
  Rev2.RoomId req = EmptyString \/ Rev2.From req = EmptyString
  \/ Rev2.Message req = EmptyString.

Definition required_present (req : Rev2.MessageRequest) : Prop :=
  Rev2.RoomId req <> EmptyString /\ Rev2.From req <> EmptyString
  /\ Rev2.Message req <> EmptyString.

Definition form_keys : list string :=
  ["room_id"; "from"; "message"; "notify"; "color"; "message_format"].

(** [if len(c.BaseURL) == 0 { c.BaseURL = defaultBaseURL }] *)
Definition defaulted (c : Rev2.Client) : Rev2.Client :=
  if (len (Rev2.BaseURL c) =? 0)%nat
  then {| Rev2.AuthToken := Rev2.AuthToken c; Rev2.BaseURL := Rev2.defaultBaseURL |}
  else c.

(** The URL of each call, for the Client as the method finds it after
    the default is filled in. *)
Definition message_uri (c : Rev2.Client) (req : Rev2.MessageRequest) : string :=
  let uri := Rev2.BaseURL c ++ "/rooms/message?auth_token="
             ++ url.QueryEscape (Rev2.AuthToken c) in
  if Rev2.AuthTest req then uri ++ "&auth_test=true" else uri.

Definition list_uri (c : Rev2.Client) : string :=
  Rev2.BaseURL c ++ "/rooms/list?auth_token=" ++ url.QueryEscape (Rev2.AuthToken c).

Definition history_uri (c : Rev2.Client) (id date tz : string) : string :=
  Rev2.BaseURL c ++ "/rooms/history?auth_token=" ++ url.QueryEscape (Rev2.AuthToken c)
  ++ "&room_id=" ++ url.QueryEscape id
  ++ "&date=" ++ url.QueryEscape date
  ++ "&timezone=" ++ url.QueryEscape tz.

(** What a call may do to the Client: AuthToken stays, BaseURL changes
    exactly when it was empty, to the default; a Client has no other
    field. *)
Definition default_filled (c c' : Rev2.Client) : Prop :=
  Rev2.AuthToken c' = Rev2.AuthToken c
  /\ (Rev2.BaseURL c' <> Rev2.BaseURL c <-> Rev2.BaseURL c = EmptyString)
  /\ (Rev2.BaseURL c = EmptyString -> Rev2.BaseURL c' = "https://api.hipchat.com/v1")
  /\ (Rev2.BaseURL c <> EmptyString -> c' = c).

(** The object [j] has no member whose key names the field [name]. *)
Definition no_member (name : string) (j : json.value) : Prop :=
  match j with
  | json.Object members =>
      Forall (fun kv => json.equalFold name (fst kv) = false) members
  | _ => True
  end.

(** The bytes that stand for themselves in a query parameter, and the
    two that escaping writes. *)
Definition url_safe (c : ascii) : bool :=
  in_range "a" "z" c || in_range "A" "Z" c || in_range "0" "9" c
  || Ascii.eqb c "-" || Ascii.eqb c "_" || Ascii.eqb c "." || Ascii.eqb c "~"
  || Ascii.eqb c "%" || Ascii.eqb c "+".

(** Both nil, or two errors with the same message. *)
Definition same_error (json_text : json.error -> string) (e1 e2 : option error) : Prop :=
  match e1, e2 with
  | None, None => True
  | Some a, Some b => Error json_text a = Error json_text b
  | _, _ => False
  end.

(** ** Sample inputs *)

(** Response bodies are written with ['] where the JSON text has a
    double quote; [js] puts the double quotes in. *)
Fixpoint js (s : string) : string :=
  match s with
  | EmptyString => EmptyString
  | String c t => String (if Ascii.eqb c "'" then json.quote else c) (js t)
  end.

(** A server that gives every request the same status and body. *)
Definition always (status : Z) (body : string) : http.request -> http.reply :=
  fun _ => http.Response status body.

(** A text for the errors of encoding/json, where one has to be named. *)
Definition silent_text : json.error -> string := fun _ => EmptyString.

Definition sample_request : Rev2.MessageRequest :=
  {| Rev2.RoomId := "Rat Man's Den";
     Rev2.From := "GLaDOS";
     Rev2.Message := "Bad news: Combustible lemons failed.";
     Rev2.MessageFormat := "text";
     Rev2.Notify := true;
     Rev2.Color := "purple";
     Rev2.AuthTest := false |}.

Definition anonymous_request : Rev2.MessageRequest :=
  {| Rev2.RoomId := "Rat Man's Den";
     Rev2.From := EmptyString;
     Rev2.Message := "Bad news: Combustible lemons failed.";
     Rev2.MessageFormat := "text";
     Rev2.Notify := true;
     Rev2.Color := "purple";
     Rev2.AuthTest := false |}.

Definition first_request : Rev0.MessageRequest :=
  {| Rev0.RoomId := "Rat Man's Den";
     Rev0.From := "GLaDOS";
     Rev0.Message := "Bad news: Combustible lemons failed.";
     Rev0.MessageFormat := "text";
     Rev0.Notify := true;
     Rev0.Color := "purple" |}.

Definition fresh_world : World Rev2.Client :=
  {| self := Rev2.NewClient "s3cr3t token"; trace := [] |}.

Definition bare_world : World Rev2.Client :=
  {| self := {| Rev2.AuthToken := "s3cr3t token"; Rev2.BaseURL := EmptyString |};
     trace := [] |}.

Definition reserved_token : string := "a&b c".

Definition sent_body : string := js "{'status':'sent'}".

Definition queued_body : string :=
  js "{'status':'queued','error':{'code':1,'message':'x'}}".

Definition numeric_status_body : string := js "{'status':5}".

Definition unauthorized_body : string :=
  js "{'error':{'code':401,'type':'Unauthorized','message':'bad token'}}".

Definition lobby_body : string :=
  js "{'rooms':[{'room_id':1,'name':'Lobby','is_archived':false}]}".

Definition text_id_body : string := js "{'rooms':[{'room_id':'1','name':'Lobby'}]}".

Definition lobby : Room :=
  {| RoomId := 1; Name := "Lobby"; Topic := EmptyString; LastActive := 0;
     Created := 0; Archived := false; Private := false; OwnerUserId := 0;
     XMPPJabberId := EmptyString |}.

(** ** Vocabulary of the further properties *)

(** The request [req] with its AuthTest flag set to [b]. *)
Definition with_AuthTest (b : bool) (req : Rev2.MessageRequest) : Rev2.MessageRequest :=
  {| Rev2.RoomId := Rev2.RoomId req;
     Rev2.From := Rev2.From req;
     Rev2.Message := Rev2.Message req;
     Rev2.MessageFormat := Rev2.MessageFormat req;
     Rev2.Notify := Rev2.Notify req;
     Rev2.Color := Rev2.Color req;
     Rev2.AuthTest := b |}.

(** A request of the first revision as a request of the current one. *)
Definition upgrade (b : bool) (req : Rev0.MessageRequest) : Rev2.MessageRequest :=
  {| Rev2.RoomId := Rev0.RoomId req;
     Rev2.From := Rev0.From req;
     Rev2.Message := Rev0.Message req;
     Rev2.MessageFormat := Rev0.MessageFormat req;
     Rev2.Notify := Rev0.Notify req;
     Rev2.Color := Rev0.Color req;
     Rev2.AuthTest := b |}.

Definition first_required_present (req : Rev0.MessageRequest) : Prop :=
  Rev0.RoomId req <> EmptyString /\ Rev0.From req <> EmptyString
  /\ Rev0.Message req <> EmptyString.

(** A call of one of the three methods of the current revision, and
    the state it leaves. *)
Inductive method (Message_t : Type) : Type :=
| DoPostMessage (req : Rev2.MessageRequest)
| DoRoomList
| DoRoomHistory (id date tz : string).
Arguments DoPostMessage {Message_t} req.
Arguments DoRoomList {Message_t}.
Arguments DoRoomHistory {Message_t} id date tz.

Definition run {Message_t : Type} `{json.Target Message_t}
    (server : http.request -> http.reply) (w : World Rev2.Client)
    (m : method Message_t) : World Rev2.Client :=
  match m with
  | DoPostMessage req => snd (Rev2.PostMessage server req w)
  | DoRoomList => snd (Rev2.RoomList server w)
  | DoRoomHistory id date tz =>
      snd (Rev2.RoomHistory (Message_t := Message_t) server id date tz w)
  end.

(** The bytes of [s] all stand for themselves under [QueryEscape]. *)
Definition plain (s : string) : bool :=
  forallb (fun c => negb (Ascii.eqb c " ") && negb (url.shouldEscape c))
          (list_ascii_of_string s).

Definition not_sent_text : string :=
  "PostMessage: response 'status' field was not 'sent'.".

(** The fields of a query string: the texts between the [&]. *)
Fixpoint split_on (sep : ascii) (s : string) : list string :=
  match s with
  | EmptyString => [EmptyString]
  | String c t =>
      if Ascii.eqb c sep then EmptyString :: split_on sep t
      else
        match split_on sep t with
        | field :: fields => String c field :: fields
        | [] => [String c EmptyString]
        end
  end.

(** [url.QueryUnescape]: [%XX] is the byte with that code, [+] is a
    space, and a [%] with no two hex digits after it is an error. *)
Fixpoint QueryUnescape (s : string) : option string :=
  match s with
  | EmptyString => Some EmptyString
  | String c t =>
      if Ascii.eqb c "%" then
        match t with
        | String h1 (String h2 t2) =>
            if json.is_hex h1 && json.is_hex h2 then
              match QueryUnescape t2 with
              | Some r =>
                  Some (String (ascii_of_N (json.hex_val h1 * 16 + json.hex_val h2)) r)
              | None => None
              end
            else None
        | _ => None
        end
      else
        match QueryUnescape t with
        | Some r => Some (String (if Ascii.eqb c "+" then " "%char else c) r)
        | None => None
        end
  end.

(** No byte of [s] is [&] or [=]. *)
Definition no_separator (s : string) : bool :=
  forallb (fun c => negb (Ascii.eqb c "&") && negb (Ascii.eqb c "="))
          (list_ascii_of_string s).

(** A reply that carries no body: the call failed, or the body could
    not be read. *)
Definition failure_text (rep : http.reply) : option string :=
  match rep with
  | http.RoundTripError text => Some text
  | http.ReadError _ text => Some text
  | http.Response _ _ => None
  end.

Definition unreachable : http.request -> http.reply :=
  fun _ => http.RoundTripError "dial tcp: connection refused".

Definition auth_request : Rev2.MessageRequest := with_AuthTest true sample_request.

Definition failed_status_body : string := js "{'status':'failed'}".

Definition first_world : World Rev0.Client :=
  {| self := {| Rev0.AuthToken := "s3cr3t" |}; trace := [] |}.

Definition two_rooms_body : string :=
  js "{'messages':[{'room_id':1,'name':'Lobby'},{'room_id':2,'name':'Den'}]}".

(** The Go names of the fields of Room that carry a json tag. *)
Definition tagged_field_names : list string :=
  ["RoomId"; "LastActive"; "Archived"; "Private"; "OwnerUserId"; "XMPPJabberId"].

(** [n] arrays, each the one element of the one around it. *)
Definition nested_arrays (n : N) : string :=
  N.iter n (String "[") (N.iter n (String "]") EmptyString).

(** An object with the one member x: 10000 nested arrays, which makes
    10001 levels of nesting. *)
Definition deep_body : string := js "{'x':" ++ nested_arrays 10000 ++ "}".

(** Two errors of the decoder of the same kind: two syntax errors, or two
    type errors for the same JSON value. *)
Definition same_kind (e0 e2 : json.error) : Prop :=
  match e0, e2 with
  | json.SyntaxError, json.SyntaxError => True
  | json.UnmarshalTypeError v0 _, json.UnmarshalTypeError v2 _ => v0 = v2
  | _, _ => False
  end.

(** * Properties *)

Arguments json.parse : simpl never.
Arguments json.equalFold : simpl never.
Arguments json.Unmarshal : simpl never.
Arguments url.QueryEscape : simpl never.

Ltac run_go :=
  unfold mbind, mret, Go_bind, Go_ret, receiver, assign, call; cbn [fst snd self trace].

(** ** The models of net/url and encoding/json on examples *)

Example QueryEscape_reserved :
  url.QueryEscape "a b&c=d/e~f+g" = "a+b%26c%3Dd%2Fe~f%2Bg".
Proof. vm_compute. reflexivity. Qed.

Example parse_nested :
  json.parse (js " {'a' : [1, -2.5e+3, true, null, {}], 'b' : 'x' } ")
  = Some (json.Object
            [("a", json.Array [json.Number "1"; json.Number "-2.5e+3";
                               json.Bool true; json.Null; json.Object []]);
             ("b", json.Str "x")]).
Proof. vm_compute. reflexivity. Qed.

Example parse_rejects :
  map json.parse
    [EmptyString; "[1,]"; "01"; "1."; "-"; "[1 2]"; js "{'a':1,}"; js "{a:1}";
     "nul"; "1 2"; js "'\x'"; js "'open"]
  = [None; None; None; None; None; None; None; None; None; None; None; None].
Proof. vm_compute. reflexivity. Qed.

Example parse_escapes :
  json.parse (js "'té😀\t\ud83d.'")
  = Some (json.Str ("té😀" ++ String "009" ("�" ++ "."))).
Proof. vm_compute. reflexivity. Qed.

Example equalFold_keys :
  map (json.equalFold "Status") ["status"; "STATUS"; "ſtatus"; "statu"; "state"]
  = [true; true; true; false; false].
Proof. vm_compute. reflexivity. Qed.

Example Unmarshal_merges_members :
  json.Unmarshal (js "{'error':{'code':7},'ERROR':{'message':'m','code':null}}")
    (json.zero : ErrorResponse)
  = ({| ErrorResponse_Error := {| Code := 7; Type_ := EmptyString; Message := "m" |} |},
     None).
Proof. vm_compute. reflexivity. Qed.

Example Unmarshal_first_error :
  snd (json.Unmarshal (js "{'error':{'code':1.5,'message':7}}") (json.zero : ErrorResponse))
  = Some (json.UnmarshalTypeError "number 1.5" "int").
Proof. vm_compute. reflexivity. Qed.

Example Unmarshal_int_range :
  snd (json.Unmarshal (js "{'rooms':[{'room_id':9223372036854775808}]}")
         (json.zero : RoomsResponse))
  = Some (json.UnmarshalTypeError "number 9223372036854775808" "int").
Proof. vm_compute. reflexivity. Qed.

Example Unmarshal_repeated_array :
  json.elems (Rooms (fst (json.Unmarshal
    (js "{'rooms':[{'name':'a'},{'name':'b'}],'rooms':[{'topic':'t'}]}")
    (json.zero : RoomsResponse))))
  = [{| RoomId := 0; Name := "a"; Topic := "t"; LastActive := 0; Created := 0;
        Archived := false; Private := false; OwnerUserId := 0;
        XMPPJabberId := EmptyString |}].
Proof. vm_compute. reflexivity. Qed.

Example AuthResponse_error_pointer :
  fst (Rev2.PostMessage
         (always 200 (js "{'error':{'code':401,'type':'Unauthorized','message':'no'}}"))
         {| Rev2.RoomId := "r"; Rev2.From := "f"; Rev2.Message := "m";
            Rev2.MessageFormat := EmptyString; Rev2.Notify := false;
            Rev2.Color := EmptyString; Rev2.AuthTest := true |}
         fresh_world)
  = Some (HipchatError_pointer {| Code := 401; Type_ := "Unauthorized"; Message := "no" |}).
Proof. vm_compute. reflexivity. Qed.

(** The scanner accepts 10000 levels of nesting and no more. *)
Example parse_nesting_limit :
  option_map (fun _ => tt) (json.parse (nested_arrays 10000)) = Some tt
  /\ json.parse (nested_arrays 10001) = None.
Proof. split; vm_compute; reflexivity. Qed.

Lemma deep_body_no_parse : json.parse deep_body = None.
Proof. vm_compute. reflexivity. Qed.

(** ** The parser never runs out of fuel *)

Lemma skip_space_len (s : string) : (len (json.skip_space s) <= len s)%nat.
Proof.
  unfold len. induction s as [| c s IH]; cbn; [lia |].
  destruct (json.is_space c); cbn in *; lia.
Qed.

Lemma scan_string_len (s raw rest : string) :
  json.scan_string s = Some (raw, rest) -> (len rest < len s)%nat.
Proof.
  unfold len. remember (String.length s) as n eqn:Hn. revert s raw rest Hn.
  induction n as [n IH] using lt_wf_ind. intros s raw rest Hn H.
  destruct s as [| c t]; [discriminate |]. cbn in H, Hn.
  destruct (Ascii.eqb c json.quote).
  { injection H as _ <-. cbn. lia. }
  destruct (Ascii.eqb c json.backslash).
  - destruct t as [| e t1]; [discriminate |].
    destruct (json.is_simple_escape e).
    + destruct (json.scan_string t1) as [[raw' rest'] |] eqn:E; [| discriminate].
      injection H as _ <-.
      apply (IH (String.length t1)) in E; cbn in *; [lia | lia | reflexivity].
    + destruct (Ascii.eqb e "u"); [| discriminate].
      destruct t1 as [| h1 [| h2 [| h3 [| h4 t5]]]]; try discriminate.
      destruct (json.is_hex h1 && json.is_hex h2 && json.is_hex h3 && json.is_hex h4);
        [| discriminate].
      destruct (json.scan_string t5) as [[raw' rest'] |] eqn:E; [| discriminate].
      injection H as _ <-.
      apply (IH (String.length t5)) in E; cbn in *; [lia | lia | reflexivity].
  - destruct (byte_val c <? 32); [discriminate |].
    destruct (json.scan_string t) as [[raw' rest'] |] eqn:E; [| discriminate].
    injection H as _ <-.
    apply (IH (String.length t)) in E; cbn in *; [lia | lia | reflexivity].
Qed.

Lemma digits_len (s ds rest : string) :
  json.digits s = (ds, rest) -> (len rest <= len s)%nat.
Proof.
  unfold len. revert ds rest. induction s as [| c s IH]; intros ds rest H; cbn in H.
  - injection H as _ <-. cbn. lia.
  - destruct (json.is_digit c).
    + destruct (json.digits s) as [ds' rest'] eqn:E. injection H as _ <-.
      specialize (IH _ _ eq_refl). cbn. lia.
    + injection H as _ <-. cbn. lia.
Qed.

Lemma scan_int_len (s i rest : string) :
  json.scan_int s = Some (i, rest) -> (len rest < len s)%nat.
Proof.
  unfold len, json.scan_int. destruct s as [| c t]; [discriminate |].
  destruct (Ascii.eqb c "0").
  - intros [= _ <-]. cbn. lia.
  - destruct (in_range "1" "9" c); [| discriminate].
    destruct (json.digits t) as [ds r] eqn:E. intros [= _ <-].
    apply digits_len in E. unfold len in E. cbn. lia.
Qed.

Lemma scan_frac_len (s f rest : string) :
  json.scan_frac s = Some (f, rest) -> (len rest <= len s)%nat.
Proof.
  unfold len, json.scan_frac. destruct s as [| c t]; [intros [= _ <-]; lia |].
  destruct (Ascii.eqb c ".").
  - destruct (json.digits t) as [ds r] eqn:E.
    destruct (json.is_empty ds); [discriminate |]. intros [= _ <-].
    apply digits_len in E. unfold len in E. cbn. lia.
  - intros [= _ <-]. lia.
Qed.

Lemma take_sign_len (signs : list ascii) (s sign rest : string) :
  json.take_sign signs s = (sign, rest) -> (len rest <= len s)%nat.
Proof.
  unfold len, json.take_sign. destruct s as [| g t]; [intros [= _ <-]; lia |].
  destruct (existsb (Ascii.eqb g) signs); intros [= _ <-]; cbn; lia.
Qed.

Lemma scan_exp_len (s e rest : string) :
  json.scan_exp s = Some (e, rest) -> (len rest <= len s)%nat.
Proof.
  unfold json.scan_exp. destruct s as [| c t]; [intros [= _ <-]; lia |].
  destruct (Ascii.eqb c "e" || Ascii.eqb c "E"); [| intros [= _ <-]; lia].
  destruct (json.take_sign _ t) as [sign t1] eqn:Es. apply take_sign_len in Es.
  destruct (json.digits t1) as [ds r] eqn:E.
  destruct (json.is_empty ds); [discriminate |]. intros [= _ <-].
  apply digits_len in E. unfold len in *. cbn. lia.
Qed.

Lemma scan_number_len (s lit rest : string) :
  json.scan_number s = Some (lit, rest) -> (len rest < len s)%nat.
Proof.
  unfold json.scan_number.
  destruct (json.take_sign _ s) as [sign s1] eqn:Es. apply take_sign_len in Es.
  destruct (json.scan_int s1) as [[i s2] |] eqn:Ei; simpl; [| discriminate].
  destruct (json.scan_frac s2) as [[f s3] |] eqn:Ef; simpl; [| discriminate].
  destruct (json.scan_exp s3) as [[e s4] |] eqn:Ee; simpl; [| discriminate].
  intros [= _ <-].
  apply scan_int_len in Ei. apply scan_frac_len in Ef. apply scan_exp_len in Ee. lia.
Qed.

Lemma strip_prefix_len (p s rest : string) :
  json.strip_prefix p s = Some rest -> (len rest + len p = len s)%nat.
Proof.
  unfold len. revert s. induction p as [| a p IH]; intros s H; cbn in H.
  - injection H as <-. cbn. lia.
  - destruct s as [| b s]; [discriminate |].
    destruct (Ascii.eqb a b); [| discriminate].
    apply IH in H. cbn in *. lia.
Qed.

Ltac len_arith := unfold len in *; cbn [String.length] in *; lia.

(** Each parser leaves less than it was given. *)
Lemma parse_consumes (n : nat) :
  (forall dp s v rest, json.parse_value n dp s = json.Parsed v rest ->
                      (len rest < len s)%nat)
  /\ (forall dp s acc v rest, json.parse_elems n dp s acc = json.Parsed v rest ->
                             (len rest < len s)%nat)
  /\ (forall dp s acc v rest, json.parse_members n dp s acc = json.Parsed v rest ->
                             (len rest < len s)%nat).
Proof.
  induction n as [| n (IHv & IHe & IHm)]; [repeat split; intros; discriminate |].
  repeat split.
  - intros dp s v rest H. cbn [json.parse_value] in H.
    destruct s as [| c t]; [discriminate |].
    pose proof (skip_space_len t) as Ht.
    destruct (Ascii.eqb c "{").
    { destruct (json.maxNestingDepth <=? dp); [discriminate |].
      destruct (json.skip_space t) as [| c1 t1] eqn:E; [discriminate |].
      destruct (Ascii.eqb c1 "}"); [injection H as _ <-; len_arith |].
      apply IHm in H. len_arith. }
    destruct (Ascii.eqb c "[").
    { destruct (json.maxNestingDepth <=? dp); [discriminate |].
      destruct (json.skip_space t) as [| c1 t1] eqn:E; [discriminate |].
      destruct (Ascii.eqb c1 "]"); [injection H as _ <-; len_arith |].
      apply IHe in H. len_arith. }
    destruct (Ascii.eqb c json.quote).
    { destruct (json.scan_string t) as [[raw r] |] eqn:E; [| discriminate].
      injection H as _ <-. apply scan_string_len in E. len_arith. }
    destruct (Ascii.eqb c "-" || json.is_digit c).
    { destruct (json.scan_number (String c t)) as [[lit r] |] eqn:E; [| discriminate].
      injection H as _ <-. apply scan_number_len in E. exact E. }
    destruct (Ascii.eqb c "t").
    { destruct (json.strip_prefix "true" (String c t)) as [r |] eqn:E; [| discriminate].
      injection H as _ <-. apply strip_prefix_len in E. len_arith. }
    destruct (Ascii.eqb c "f").
    { destruct (json.strip_prefix "false" (String c t)) as [r |] eqn:E; [| discriminate].
      injection H as _ <-. apply strip_prefix_len in E. len_arith. }
    destruct (Ascii.eqb c "n"); [| discriminate].
    destruct (json.strip_prefix "null" (String c t)) as [r |] eqn:E; [| discriminate].
    injection H as _ <-. apply strip_prefix_len in E. len_arith.
  - intros dp s acc v rest H. cbn [json.parse_elems] in H.
    destruct (json.parse_value n dp s) as [v1 r1 | |] eqn:E; try discriminate.
    apply IHv in E. pose proof (skip_space_len r1) as Hr.
    destruct (json.skip_space r1) as [| c t]; [discriminate |].
    pose proof (skip_space_len t) as Ht.
    destruct (Ascii.eqb c ","); [apply IHe in H; len_arith |].
    destruct (Ascii.eqb c "]"); [| discriminate].
    injection H as _ <-. len_arith.
  - intros dp s acc v rest H. cbn [json.parse_members] in H.
    destruct s as [| q t]; [discriminate |].
    destruct (Ascii.eqb q json.quote); [| discriminate].
    destruct (json.scan_string t) as [[raw r] |] eqn:Es; [| discriminate].
    apply scan_string_len in Es. pose proof (skip_space_len r) as Hr.
    destruct (json.skip_space r) as [| c t1]; [discriminate |].
    destruct (Ascii.eqb c ":"); [| discriminate].
    pose proof (skip_space_len t1) as Ht1.
    destruct (json.parse_value n dp (json.skip_space t1)) as [v1 r1 | |] eqn:E;
      try discriminate.
    apply IHv in E. pose proof (skip_space_len r1) as Hr1.
    destruct (json.skip_space r1) as [| d t2]; [discriminate |].
    pose proof (skip_space_len t2) as Ht2.
    destruct (Ascii.eqb d ","); [apply IHm in H; len_arith |].
    destruct (Ascii.eqb d "}"); [| discriminate].
    injection H as _ <-. len_arith.
Qed.

(** With more fuel than twice the length of the input, no parser stops
    for want of fuel. *)
Lemma parse_fuel (n : nat) :
  (forall dp s, (2 * len s < n)%nat -> json.parse_value n dp s <> json.OutOfFuel)
  /\ (forall dp s acc, (2 * len s + 1 < n)%nat ->
                      json.parse_elems n dp s acc <> json.OutOfFuel)
  /\ (forall dp s acc, (2 * len s + 1 < n)%nat ->
                      json.parse_members n dp s acc <> json.OutOfFuel).
Proof.
  induction n as [| n (IHv & IHe & IHm)]; [repeat split; intros; lia |].
  destruct (parse_consumes n) as (Cv & _ & _).
  repeat split.
  - intros dp s Hn. cbn [json.parse_value].
    destruct s as [| c t]; [discriminate |].
    pose proof (skip_space_len t) as Ht.
    destruct (Ascii.eqb c "{").
    { destruct (json.maxNestingDepth <=? dp); [discriminate |].
      destruct (json.skip_space t) as [| c1 t1] eqn:E; [discriminate |].
      destruct (Ascii.eqb c1 "}"); [discriminate |]. apply IHm. len_arith. }
    destruct (Ascii.eqb c "[").
    { destruct (json.maxNestingDepth <=? dp); [discriminate |].
      destruct (json.skip_space t) as [| c1 t1] eqn:E; [discriminate |].
      destruct (Ascii.eqb c1 "]"); [discriminate |]. apply IHe. len_arith. }
    repeat match goal with
      | |- context [if ?b then _ else _] => destruct b
      | |- context [match ?x with Some _ => _ | None => _ end] => destruct x as [[? ?] |]
      | |- context [match ?x with Some _ => _ | None => _ end] => destruct x
      end; discriminate.
  - intros dp s acc Hn. cbn [json.parse_elems].
    destruct (json.parse_value n dp s) as [v1 r1 | |] eqn:E; [| discriminate |].
    + apply Cv in E. pose proof (skip_space_len r1) as Hr.
      destruct (json.skip_space r1) as [| c t]; [discriminate |].
      pose proof (skip_space_len t) as Ht.
      destruct (Ascii.eqb c ","); [apply IHe; len_arith |].
      destruct (Ascii.eqb c "]"); discriminate.
    + exfalso. revert E. apply IHv. lia.
  - intros dp s acc Hn. cbn [json.parse_members].
    destruct s as [| q t]; [discriminate |].
    destruct (Ascii.eqb q json.quote); [| discriminate].
    destruct (json.scan_string t) as [[raw r] |] eqn:Es; [| discriminate].
    apply scan_string_len in Es. pose proof (skip_space_len r) as Hr.
    destruct (json.skip_space r) as [| c t1]; [discriminate |].
    destruct (Ascii.eqb c ":"); [| discriminate].
    pose proof (skip_space_len t1) as Ht1.
    destruct (json.parse_value n dp (json.skip_space t1)) as [v1 r1 | |] eqn:E;
      [| discriminate |].
    + apply Cv in E. pose proof (skip_space_len r1) as Hr1.
      destruct (json.skip_space r1) as [| d t2]; [discriminate |].
      pose proof (skip_space_len t2) as Ht2.
      destruct (Ascii.eqb d ","); [apply IHm; len_arith |].
      destruct (Ascii.eqb d "}"); discriminate.
    + exfalso. revert E. apply IHv. len_arith.
Qed.

(** So [parse] answers [None] for a text that is no JSON value only. *)
Lemma parse_has_fuel (data : string) :
  json.parse_value (2 * len data + 1) 0 (json.skip_space data) <> json.OutOfFuel.
Proof.
  apply (parse_fuel (2 * len data + 1)). pose proof (skip_space_len data). lia.
Qed.

(** ** Validation and the form parameters *)

Lemma len_zero (s : string) : (len s =? 0)%nat = true <-> s = EmptyString.
Proof. destruct s; cbn; split; congruence. Qed.

Lemma len_pos (s : string) : (0 <? len s)%nat = true <-> s <> EmptyString.
Proof. destruct s; cbn; split; congruence. Qed.

Lemma len_nonzero (s : string) : s <> EmptyString -> (len s =? 0)%nat = false.
Proof. destruct s; cbn; congruence. Qed.

Lemma urlValues_missing (req : Rev2.MessageRequest) :
  required_missing req ->
  Rev2.urlValuesFromMessageRequest req = (∅, Some (errors_New required_fields_text)).
Proof.
  intros H. unfold Rev2.urlValuesFromMessageRequest.
  destruct H as [H | [H | H]]; rewrite H; cbn;
    rewrite ?orb_true_r; reflexivity.
Qed.

Lemma urlValues_present (req : Rev2.MessageRequest) :
  required_present req -> snd (Rev2.urlValuesFromMessageRequest req) = None.
Proof.
  intros (H1 & H2 & H3). unfold Rev2.urlValuesFromMessageRequest.
  destruct (Rev2.RoomId req); [congruence |].
  destruct (Rev2.From req); [congruence |].
  destruct (Rev2.Message req); [congruence |].
  reflexivity.
Qed.

Lemma Add_fresh (key value : string) (v : url.Values) :
  v !! key = None -> url.Add key value v = <[key := [value]]> v.
Proof. intros H. unfold url.Add. rewrite H. reflexivity. Qed.

(** C3: for a request whose RoomId, From and Message are not empty, the
    form parameters bind room_id, from and message to those fields,
    notify to 1 exactly when Notify is set, color and message_format
    to their fields exactly when these are not empty, and no other key. *)
Theorem C3_form_parameters (req : Rev2.MessageRequest) :
  required_present req ->
  exists payload : url.Values,
    Rev2.urlValuesFromMessageRequest req = (payload, None)
    /\ payload !! "room_id" = Some [Rev2.RoomId req]
    /\ payload !! "from" = Some [Rev2.From req]
    /\ payload !! "message" = Some [Rev2.Message req]
    /\ payload !! "notify" = (if Rev2.Notify req then Some ["1"] else None)
    /\ payload !! "color" =
         (if decide (Rev2.Color req = EmptyString) then None
          else Some [Rev2.Color req])
    /\ payload !! "message_format" =
         (if decide (Rev2.MessageFormat req = EmptyString) then None
          else Some [Rev2.MessageFormat req])
    /\ (forall k : string, k ∉ form_keys -> payload !! k = None).
Proof.
  intros (H1 & H2 & H3). unfold Rev2.urlValuesFromMessageRequest.
  apply len_nonzero in H1 as E1. apply len_nonzero in H2 as E2.
  apply len_nonzero in H3 as E3.
  rewrite E1, E2, E3. cbn [orb].
  eexists. split; [reflexivity |].
  assert (Hk : forall k : string, k ∉ form_keys ->
            k <> "room_id" /\ k <> "from" /\ k <> "message" /\ k <> "notify"
            /\ k <> "color" /\ k <> "message_format").
  { intros k Hk. unfold form_keys in Hk. repeat split; intros ->; apply Hk; set_solver. }
  destruct (Rev2.Notify req);
    (destruct (decide (Rev2.Color req = EmptyString)) as [Ec | Ec];
     [ rewrite Ec | apply len_pos in Ec; rewrite Ec ]);
    (destruct (decide (Rev2.MessageFormat req = EmptyString)) as [Ef | Ef];
     [ rewrite Ef | apply len_pos in Ef; rewrite Ef ]);
    cbn [len String.length Nat.ltb Nat.leb];
    rewrite ?Add_fresh by (by simplify_map_eq);
    repeat split; try (by simplify_map_eq);
    intros k Hn; destruct (Hk k Hn) as (? & ? & ? & ? & ? & ?); by simplify_map_eq.
Qed.

(** C3 at the request of the README. *)
Lemma C3_form_parameters_witness :
  exists payload : url.Values,
    Rev2.urlValuesFromMessageRequest sample_request = (payload, None)
    /\ payload !! "room_id" = Some ["Rat Man's Den"]
    /\ payload !! "from" = Some ["GLaDOS"]
    /\ payload !! "message" = Some ["Bad news: Combustible lemons failed."]
    /\ payload !! "notify" = Some ["1"]
    /\ payload !! "color" = Some ["purple"]
    /\ payload !! "message_format" = Some ["text"]
    /\ (forall k : string, k ∉ form_keys -> payload !! k = None).
Proof.
  apply (C3_form_parameters sample_request).
  repeat split; discriminate.
Defined.

(** ** The state after a method of the current revision *)

Lemma answered_call {C : Type} (server : http.request -> http.reply)
    (w : World C) (c : C) (r : http.request) (rep : http.reply) :
  answered server w {| self := c; trace := trace w ++ [r] |} rep -> server r = rep.
Proof.
  intros (r' & Ht & Hr). cbn in Ht. apply app_inv_head in Ht.
  injection Ht as ->. exact Hr.
Qed.

Ltac split_matches :=
  repeat match goal with
    | |- context [match ?x with _ => _ end] => destruct x
    end.

Lemma PostMessage_world (server : http.request -> http.reply)
    (req : Rev2.MessageRequest) (w : World Rev2.Client) :
  snd (Rev2.PostMessage server req w) =
  {| self := defaulted (self w);
     trace := trace w ++
       match Rev2.urlValuesFromMessageRequest req with
       | (payload, None) => [http.PostForm (message_uri (defaulted (self w)) req) payload]
       | (_, Some _) => []
       end |}.
Proof.
  unfold Rev2.PostMessage, defaulted, message_uri. run_go.
  destruct (Rev2.urlValuesFromMessageRequest req) as [payload [err|]];
    destruct (len (Rev2.BaseURL (self w)) =? 0)%nat; cbn [fst snd self trace];
    rewrite ?app_nil_r; try (destruct w; reflexivity);
    split_matches; reflexivity.
Qed.

Lemma RoomList_world (server : http.request -> http.reply) (w : World Rev2.Client) :
  snd (Rev2.RoomList server w) =
  {| self := defaulted (self w);
     trace := trace w ++ [http.Get (list_uri (defaulted (self w)))] |}.
Proof.
  unfold Rev2.RoomList, defaulted, list_uri. run_go.
  destruct (len (Rev2.BaseURL (self w)) =? 0)%nat; cbn [fst snd self trace];
    split_matches; reflexivity.
Qed.

Lemma RoomHistory_world {Message_t : Type} `{json.Target Message_t}
    (server : http.request -> http.reply) (id date tz : string)
    (w : World Rev2.Client) :
  snd (Rev2.RoomHistory (Message_t := Message_t) server id date tz w) =
  {| self := defaulted (self w);
     trace := trace w ++ [http.Get (history_uri (defaulted (self w)) id date tz)] |}.
Proof.
  unfold Rev2.RoomHistory, defaulted, history_uri. run_go.
  destruct (len (Rev2.BaseURL (self w)) =? 0)%nat; cbn [fst snd self trace];
    split_matches; reflexivity.
Qed.

(** The value a method returns, given the reply to its call. *)
Lemma PostMessage_reply (server : http.request -> http.reply)
    (req : Rev2.MessageRequest) (w : World Rev2.Client) (payload : url.Values)
    (status : Z) (body : string) :
  Rev2.AuthTest req = false ->
  Rev2.urlValuesFromMessageRequest req = (payload, None) ->
  answered server w (snd (Rev2.PostMessage server req w)) (http.Response status body) ->
  fst (Rev2.PostMessage server req w) =
  match json.Unmarshal body (json.zero : StatusResponse) with
  | (_, Some err) => Some (json_error err)
  | (msgResp, None) =>
      if negb (String.eqb (Status msgResp) ResponseStatusSent)
      then Rev2.getError body else None
  end.
Proof.
  intros Hauth Hv Hans. rewrite PostMessage_world, Hv in Hans.
  apply answered_call in Hans. revert Hans.
  unfold Rev2.PostMessage, defaulted, message_uri. run_go. rewrite Hv, Hauth.
  destruct (len (Rev2.BaseURL (self w)) =? 0)%nat; cbn [fst snd self trace];
    intros ->; split_matches; reflexivity.
Qed.

Lemma RoomList_reply (server : http.request -> http.reply) (w : World Rev2.Client)
    (status : Z) (body : string) :
  answered server w (snd (Rev2.RoomList server w)) (http.Response status body) ->
  fst (Rev2.RoomList server w) =
  if negb (status =? http.StatusOK)%Z then ([], Rev2.getError body)
  else
    match json.Unmarshal body (json.zero : RoomsResponse) with
    | (_, Some err) => ([], Some (json_error err))
    | (roomsResp, None) => (json.elems (Rooms roomsResp), None)
    end.
Proof.
  intros Hans. rewrite RoomList_world in Hans.
  apply answered_call in Hans. revert Hans.
  unfold Rev2.RoomList, defaulted, list_uri. run_go.
  destruct (len (Rev2.BaseURL (self w)) =? 0)%nat; cbn [fst snd self trace];
    intros ->; split_matches; reflexivity.
Qed.

Lemma RoomHistory_reply {Message_t : Type} `{json.Target Message_t}
    (server : http.request -> http.reply) (id date tz : string)
    (w : World Rev2.Client) (status : Z) (body : string) :
  answered server w (snd (Rev2.RoomHistory (Message_t := Message_t) server id date tz w))
    (http.Response status body) ->
  fst (Rev2.RoomHistory (Message_t := Message_t) server id date tz w) =
  if negb (status =? http.StatusOK)%Z then ([], Rev2.getError body)
  else
    match json.Unmarshal body (json.zero : Rev2.MessagesResponse) with
    | (_, Some err) => ([], Some (json_error err))
    | (msgResp, None) => (json.elems (Rev2.Messages msgResp), None)
    end.
Proof.
  intros Hans. rewrite RoomHistory_world in Hans.
  apply answered_call in Hans. revert Hans.
  unfold Rev2.RoomHistory, defaulted, history_uri. run_go.
  destruct (len (Rev2.BaseURL (self w)) =? 0)%nat; cbn [fst snd self trace];
    intros ->; split_matches; reflexivity.
Qed.

(** ** PostMessage *)

(** C1: when RoomId, From or Message is empty, PostMessage returns the
    validation error and the trace of HTTP calls is what it was. *)
Theorem C1_PostMessage_validation (server : http.request -> http.reply)
    (req : Rev2.MessageRequest) (w : World Rev2.Client) :
  required_missing req ->
  fst (Rev2.PostMessage server req w) = Some (errors_New required_fields_text)
  /\ trace (snd (Rev2.PostMessage server req w)) = trace w.
Proof.
  intros H. rewrite PostMessage_world.
  unfold Rev2.PostMessage. run_go.
  rewrite (urlValues_missing req H). cbn [trace].
  split; [| apply app_nil_r].
  destruct (len (Rev2.BaseURL (self w)) =? 0)%nat; reflexivity.
Qed.

(** C1 at a request with no From. *)
Lemma C1_PostMessage_validation_witness :
  fst (Rev2.PostMessage (always 200 queued_body) anonymous_request fresh_world)
    = Some (errors_New required_fields_text)
  /\ trace (snd (Rev2.PostMessage (always 200 queued_body) anonymous_request fresh_world))
     = [].
Proof.
  apply (C1_PostMessage_validation (always 200 queued_body) anonymous_request fresh_world).
  right; left; reflexivity.
Defined.

Lemma getError_not_nil (body : string) : is_Some (Rev2.getError body).
Proof.
  unfold Rev2.getError.
  destruct (json.Unmarshal body json.zero) as [errResp [err|]]; eexists; reflexivity.
Qed.

(** Members that name no field leave the struct as it is. *)
Lemma members_skip {A : Type}
    (field : string -> json.value -> A -> option json.error -> A * option json.error)
    (members : list (string * json.value)) (v : A) (saved : option json.error) :
  Forall (fun kv => forall v' saved', field (fst kv) (snd kv) v' saved' = (v', saved'))
         members ->
  fold_left (fun st kv => field (fst kv) (snd kv) (fst st) (snd st)) members (v, saved)
  = (v, saved).
Proof.
  intros H. induction H as [| kv members Hkv _ IH]; cbn; [reflexivity |].
  rewrite Hkv. exact IH.
Qed.

(** An object with one member for a field, and none before or after it
    that names the field, is stored as that one member is. *)
Lemma one_member {A : Type}
    (field : string -> json.value -> A -> option json.error -> A * option json.error)
    (before after : list (string * json.value)) (key : string) (j : json.value)
    (v : A) (saved : option json.error) :
  Forall (fun kv => forall v' saved', field (fst kv) (snd kv) v' saved' = (v', saved'))
         before ->
  Forall (fun kv => forall v' saved', field (fst kv) (snd kv) v' saved' = (v', saved'))
         after ->
  fold_left (fun st kv => field (fst kv) (snd kv) (fst st) (snd st))
            (before ++ (key, j) :: after) (v, saved)
  = field key j v saved.
Proof.
  intros Hb Ha. rewrite fold_left_app, (members_skip field before v saved Hb).
  cbn [fold_left fst snd]. destruct (field key j v saved) as [v1 saved1].
  apply members_skip. exact Ha.
Qed.

(** The status struct takes its Status from the status member of the
    body. *)
Lemma status_of_member (body : string) (before after : list (string * json.value))
    (key s : string) :
  json.parse body = Some (json.Object (before ++ (key, json.Str s) :: after)) ->
  no_member "Status" (json.Object before) ->
  no_member "Status" (json.Object after) ->
  json.equalFold "Status" key = true ->
  json.Unmarshal body (json.zero : StatusResponse) = ({| Status := s |}, None).
Proof.
  intros Hp Hb Ha Hk. unfold json.Unmarshal. rewrite Hp.
  change (json.store (json.Object (before ++ (key, json.Str s) :: after))
            (json.zero : StatusResponse) None)
    with (fold_left (fun st kv => StatusResponse_field (fst kv) (snd kv) (fst st) (snd st))
            (before ++ (key, json.Str s) :: after) (json.zero : StatusResponse, None)).
  assert (Hskip : forall ms, no_member "Status" (json.Object ms) ->
            Forall (fun kv => forall v' saved',
                        StatusResponse_field (fst kv) (snd kv) v' saved' = (v', saved')) ms).
  { intros ms Hno. unfold no_member in Hno. eapply Forall_impl; [exact Hno |].
    intros [k j] Hf v' saved'. cbn [fst snd] in *.
    unfold StatusResponse_field. rewrite Hf. reflexivity. }
  rewrite one_member by auto.
  unfold StatusResponse_field. rewrite Hk. reflexivity.
Qed.

(** On the path without AuthTest, with a body that decodes: nil exactly
    for the status sent, and [getError] of the body otherwise. *)
Lemma PostMessage_status_path (server : http.request -> http.reply)
    (req : Rev2.MessageRequest) (w : World Rev2.Client)
    (status : Z) (body : string) (msgResp : StatusResponse) :
  Rev2.AuthTest req = false ->
  required_present req ->
  answered server w (snd (Rev2.PostMessage server req w)) (http.Response status body) ->
  json.Unmarshal body (json.zero : StatusResponse) = (msgResp, None) ->
  (fst (Rev2.PostMessage server req w) = None <-> Status msgResp = "sent")
  /\ (Status msgResp <> "sent" ->
      fst (Rev2.PostMessage server req w) = Rev2.getError body).
Proof.
  intros Hauth Hreq Hans Hbody.
  pose proof (urlValues_present req Hreq) as Hv.
  destruct (Rev2.urlValuesFromMessageRequest req) as [payload err] eqn:Hp.
  cbn in Hv. subst err.
  rewrite (PostMessage_reply server req w payload status body Hauth Hp Hans), Hbody.
  destruct (String.eqb_spec (Status msgResp) ResponseStatusSent) as [Hs | Hs]; cbn [negb].
  - split; [tauto |]. intros Hne; contradiction.
  - split; [| reflexivity].
    split; [| intros Hn; contradiction].
    intros Hn. destruct (getError_not_nil body) as [e He]. congruence.
Qed.

(** C2: on the path without AuthTest, with the required fields present
    and a body that decodes into the status struct, PostMessage returns
    nil exactly when Status is sent, and what getError makes of the
    same body otherwise.  The Status is the status member of the body;
    the body with status sent gives nil, and the body with status
    queued and an error of message x gives an error with that
    message. *)
Theorem C2_PostMessage_status (json_text : json.error -> string)
    (server : http.request -> http.reply)
    (req : Rev2.MessageRequest) (w : World Rev2.Client)
    (status : Z) (body : string) (msgResp : StatusResponse) :
  Rev2.AuthTest req = false ->
  required_present req ->
  answered server w (snd (Rev2.PostMessage server req w)) (http.Response status body) ->
  json.Unmarshal body (json.zero : StatusResponse) = (msgResp, None) ->
  (fst (Rev2.PostMessage server req w) = None <-> Status msgResp = "sent")
  /\ (Status msgResp <> "sent" ->
      fst (Rev2.PostMessage server req w) = Rev2.getError body)
  /\ (body = queued_body ->
      exists e, fst (Rev2.PostMessage server req w) = Some e
                /\ Error json_text e = "x")
  /\ (body = sent_body -> fst (Rev2.PostMessage server req w) = None)
  /\ (forall (before after : list (string * json.value)) (key s : string),
      json.parse body = Some (json.Object (before ++ (key, json.Str s) :: after)) ->
      no_member "Status" (json.Object before) ->
      no_member "Status" (json.Object after) ->
      json.equalFold "Status" key = true ->
      Status msgResp = s
      /\ (fst (Rev2.PostMessage server req w) = None <-> s = "sent")).
Proof.
  intros Hauth Hreq Hans Hbody.
  destruct (PostMessage_status_path server req w status body msgResp Hauth Hreq Hans Hbody)
    as [Hiff Hget].
  split; [exact Hiff |]. split; [exact Hget |]. split; [| split].
  - intros ->. vm_compute in Hbody. injection Hbody as <-.
    rewrite Hget by discriminate. eexists. split; reflexivity.
  - intros ->. vm_compute in Hbody. injection Hbody as <-.
    apply Hiff. reflexivity.
  - intros before after key s Hp Hb Ha Hk.
    rewrite (status_of_member body before after key s Hp Hb Ha Hk) in Hbody.
    injection Hbody as <-. split; [reflexivity | exact Hiff].
Qed.

(** C2 at the body with status sent and at the body with status queued. *)
Lemma C2_PostMessage_status_witness :
  fst (Rev2.PostMessage (always 200 sent_body) sample_request fresh_world) = None
  /\ (fst (Rev2.PostMessage (always 200 queued_body) sample_request fresh_world) = None
      <-> Status {| Status := "queued" |} = "sent")
  /\ fst (Rev2.PostMessage (always 200 queued_body) sample_request fresh_world)
     = Rev2.getError queued_body
  /\ exists e,
       fst (Rev2.PostMessage (always 200 queued_body) sample_request fresh_world) = Some e
       /\ Error silent_text e = "x".
Proof.
  split.
  - destruct (C2_PostMessage_status silent_text (always 200 sent_body) sample_request
                fresh_world 200 sent_body {| Status := "sent" |})
      as (_ & _ & _ & Hsent & _).
    + reflexivity.
    + repeat split; discriminate.
    + eexists. split; [vm_compute; reflexivity | reflexivity].
    + vm_compute. reflexivity.
    + apply Hsent. reflexivity.
  - destruct (C2_PostMessage_status silent_text (always 200 queued_body) sample_request
                fresh_world 200 queued_body {| Status := "queued" |})
      as (Hiff & Hget & Hx & _).
    + reflexivity.
    + repeat split; discriminate.
    + eexists. split; [vm_compute; reflexivity | reflexivity].
    + vm_compute. reflexivity.
    + split; [exact Hiff |]. split; [apply Hget; discriminate | apply Hx; reflexivity].
Defined.

Example PostMessage_status_any_case :
  fst (Rev2.PostMessage (always 200 (js "{'id':7, 'STATUS':'sent'}")) sample_request
         fresh_world) = None.
Proof. vm_compute. reflexivity. Qed.

(** ** getError *)

(** A JSON object with the members code, type and message of the types
    of HipchatError is stored field by field. *)
Lemma HipchatError_of_members (lit typ msg : string) (n : Z) (v : HipchatError)
    (saved : option json.error) :
  json.ParseInt lit = Some n ->
  json.store
    (json.Object [("code", json.Number lit); ("type", json.Str typ);
                  ("message", json.Str msg)]) v saved
  = ({| Code := n; Type_ := typ; Message := msg |}, saved).
Proof.
  intros Hn.
  change (json.store ?j v saved)
    with (json.store_struct "hipchat.HipchatError" HipchatError_field j v saved).
  cbn [json.store_struct fold_left fst snd]. unfold HipchatError_field.
  change (json.equalFold "Code" "code") with true.
  change (json.equalFold "Code" "type") with false.
  change (json.equalFold "Type" "type") with true.
  change (json.equalFold "Code" "message") with false.
  change (json.equalFold "Type" "message") with false.
  change (json.equalFold "Message" "message") with true.
  cbn [json.store json.int_Target json.string_Target json.store_int json.store_string
       Code Type_ Message].
  rewrite Hn. reflexivity.
Qed.

(** The error of getError is the error member of the body. *)
Lemma getError_of_member (body : string) (before after : list (string * json.value))
    (key lit typ msg : string) (n : Z) :
  json.parse body
  = Some (json.Object
            (before
             ++ (key, json.Object [("code", json.Number lit); ("type", json.Str typ);
                                   ("message", json.Str msg)]) :: after)) ->
  no_member "Error" (json.Object before) ->
  no_member "Error" (json.Object after) ->
  json.equalFold "Error" key = true ->
  json.ParseInt lit = Some n ->
  Rev2.getError body
  = Some (HipchatError_value {| Code := n; Type_ := typ; Message := msg |}).
Proof.
  intros Hp Hb Ha Hk Hn. unfold Rev2.getError, json.Unmarshal. rewrite Hp.
  change (json.store (json.Object ?ms) (json.zero : ErrorResponse) None)
    with (fold_left (fun st kv => ErrorResponse_field (fst kv) (snd kv) (fst st) (snd st))
            ms (json.zero : ErrorResponse, None)).
  assert (Hskip : forall ms, no_member "Error" (json.Object ms) ->
            Forall (fun kv => forall v' saved',
                        ErrorResponse_field (fst kv) (snd kv) v' saved' = (v', saved')) ms).
  { intros ms Hno. unfold no_member in Hno. eapply Forall_impl; [exact Hno |].
    intros [k j] Hf v' saved'. cbn [fst snd] in *.
    unfold ErrorResponse_field. rewrite Hf. reflexivity. }
  rewrite one_member by auto.
  unfold ErrorResponse_field. rewrite Hk.
  rewrite (HipchatError_of_members lit typ msg n _ None Hn). reflexivity.
Qed.

(** C5: getError returns the HipchatError decoded into the Error field
    when the body decodes, the error of the decoder when it does not
    (the syntax error when the body is no JSON text), and never nil.
    The HipchatError is the error member of the body: its code, type
    and message are the Code, Type and Message returned, as for the
    Unauthorized body. *)
Theorem C5_getError (body : string) :
  (forall errResp : ErrorResponse,
      json.Unmarshal body json.zero = (errResp, None) ->
      Rev2.getError body = Some (HipchatError_value (ErrorResponse_Error errResp)))
  /\ (json.parse body = None ->
      Rev2.getError body = Some (json_error json.SyntaxError))
  /\ (forall (errResp : ErrorResponse) (err : json.error),
      json.Unmarshal body json.zero = (errResp, Some err) ->
      Rev2.getError body = Some (json_error err))
  /\ is_Some (Rev2.getError body)
  /\ (forall (before after : list (string * json.value)) (key lit typ msg : string)
             (n : Z),
      json.parse body
      = Some (json.Object
                (before
                 ++ (key, json.Object [("code", json.Number lit);
                                       ("type", json.Str typ);
                                       ("message", json.Str msg)]) :: after)) ->
      no_member "Error" (json.Object before) ->
      no_member "Error" (json.Object after) ->
      json.equalFold "Error" key = true ->
      json.ParseInt lit = Some n ->
      Rev2.getError body
      = Some (HipchatError_value {| Code := n; Type_ := typ; Message := msg |}))
  /\ (body = unauthorized_body ->
      Rev2.getError body
      = Some (HipchatError_value
                {| Code := 401; Type_ := "Unauthorized"; Message := "bad token" |})).
Proof.
  split; [| split; [| split; [| split; [| split]]]].
  - intros errResp H. unfold Rev2.getError. rewrite H. reflexivity.
  - intros H. unfold Rev2.getError, json.Unmarshal. rewrite H. reflexivity.
  - intros errResp err H. unfold Rev2.getError. rewrite H. reflexivity.
  - apply getError_not_nil.
  - intros before after key lit typ msg n. apply getError_of_member.
  - intros ->.
    apply (getError_of_member unauthorized_body [] [] "error" "401" "Unauthorized"
             "bad token" 401); try (vm_compute; reflexivity); constructor.
Qed.

(** C5 at the Unauthorized body and at a body that is no JSON text. *)
Lemma C5_getError_witness :
  Rev2.getError unauthorized_body
  = Some (HipchatError_value
            {| Code := 401; Type_ := "Unauthorized"; Message := "bad token" |})
  /\ Rev2.getError "<html>502 Bad Gateway</html>" = Some (json_error json.SyntaxError).
Proof.
  split.
  - destruct (C5_getError unauthorized_body) as (_ & _ & _ & _ & _ & Hbody).
    apply Hbody. reflexivity.
  - destruct (C5_getError "<html>502 Bad Gateway</html>") as (_ & Hsyntax & _).
    apply Hsyntax. vm_compute. reflexivity.
Defined.

Example getError_unauthorized :
  Rev2.getError unauthorized_body
  = Some (HipchatError_value
            {| Code := 401; Type_ := "Unauthorized"; Message := "bad token" |}).
Proof. vm_compute. reflexivity. Qed.

Example getError_not_json :
  Rev2.getError "<html>502 Bad Gateway</html>" = Some (json_error json.SyntaxError).
Proof. vm_compute. reflexivity. Qed.

Example getError_null :
  Rev2.getError "null" = Some (HipchatError_value json.zero).
Proof. vm_compute. reflexivity. Qed.

(** ** RoomList and RoomHistory on a status other than 200 *)

(** C4: on a status code other than 200, RoomList and RoomHistory
    return no elements and what getError makes of the body; for the
    Unauthorized body that is an error with the message bad token. *)
Theorem C4_status_not_OK {Message_t : Type} `{json.Target Message_t}
    (json_text : json.error -> string) (server : http.request -> http.reply)
    (w : World Rev2.Client) (id date tz : string) (status : Z) (body : string) :
  status <> 200%Z ->
  (answered server w (snd (Rev2.RoomList server w)) (http.Response status body) ->
   fst (Rev2.RoomList server w) = ([], Rev2.getError body))
  /\ (answered server w
        (snd (Rev2.RoomHistory (Message_t := Message_t) server id date tz w))
        (http.Response status body) ->
      fst (Rev2.RoomHistory (Message_t := Message_t) server id date tz w)
      = ([], Rev2.getError body))
  /\ (body = unauthorized_body ->
      exists e, Rev2.getError body = Some e /\ Error json_text e = "bad token").
Proof.
  intros Hs.
  assert (E : negb (status =? http.StatusOK)%Z = true).
  { unfold http.StatusOK. destruct (Z.eqb_spec status 200); [contradiction | reflexivity]. }
  repeat split.
  - intros Hans. rewrite (RoomList_reply server w status body Hans), E. reflexivity.
  - intros Hans. rewrite (RoomHistory_reply server id date tz w status body Hans), E.
    reflexivity.
  - intros ->. rewrite getError_unauthorized. eexists. split; reflexivity.
Qed.

(** C4 at status 401 with the Unauthorized body. *)
Lemma C4_status_not_OK_witness :
  fst (Rev2.RoomList (always 401 unauthorized_body) fresh_world)
  = ([], Rev2.getError unauthorized_body)
  /\ fst (Rev2.RoomHistory (Message_t := Room) (always 401 unauthorized_body)
            "1" "2013-06-01" "UTC" fresh_world)
     = ([], Rev2.getError unauthorized_body)
  /\ exists e, Rev2.getError unauthorized_body = Some e
               /\ Error silent_text e = "bad token".
Proof.
  destruct (C4_status_not_OK (Message_t := Room) silent_text
              (always 401 unauthorized_body) fresh_world "1" "2013-06-01" "UTC"
              401 unauthorized_body)
    as (Hlist & Hhistory & Hbad).
  - lia.
  - split; [| split].
    + apply Hlist. eexists. split; [vm_compute; reflexivity | reflexivity].
    + apply Hhistory. eexists. split; [vm_compute; reflexivity | reflexivity].
    + apply Hbad. reflexivity.
Defined.

(** ** The Client after a call *)

Lemma defaulted_default_filled (c : Rev2.Client) : default_filled c (defaulted c).
Proof.
  unfold default_filled, defaulted. destruct c as [tok base].
  destruct base as [| a base]; cbn.
  - repeat split; try reflexivity; try discriminate. intros Hne. contradiction.
  - repeat split; try discriminate; try reflexivity. intros Hne. contradiction.
Qed.

(** C9: PostMessage, RoomList and RoomHistory leave AuthToken as it
    was and change BaseURL exactly when it was empty, to the default
    endpoint, whatever the request and the reply. *)
Theorem C9_client_frame {Message_t : Type} `{json.Target Message_t}
    (server : http.request -> http.reply) (req : Rev2.MessageRequest)
    (id date tz : string) (w : World Rev2.Client) :
  default_filled (self w) (self (snd (Rev2.PostMessage server req w)))
  /\ default_filled (self w) (self (snd (Rev2.RoomList server w)))
  /\ default_filled (self w)
       (self (snd (Rev2.RoomHistory (Message_t := Message_t) server id date tz w))).
Proof.
  rewrite PostMessage_world, RoomList_world, RoomHistory_world. cbn [self].
  repeat split; apply defaulted_default_filled.
Qed.

Example frame_bare_client :
  self (snd (Rev2.PostMessage (always 200 queued_body) anonymous_request bare_world))
  = {| Rev2.AuthToken := "s3cr3t token"; Rev2.BaseURL := "https://api.hipchat.com/v1" |}.
Proof. vm_compute. reflexivity. Qed.

(** The first revisions never assign to the Client, and the first
    PostMessage validates before it calls, as the current one does. *)
Lemma first_revisions_frame (server : http.request -> http.reply)
    (req : Rev0.MessageRequest) (w : World Rev0.Client) :
  self (snd (Rev0.PostMessage server req w)) = self w
  /\ self (snd (Rev1.RoomList server w)) = self w.
Proof.
  unfold Rev0.PostMessage, Rev1.RoomList. run_go.
  split; split_matches; reflexivity.
Qed.

Lemma first_PostMessage_validation (server : http.request -> http.reply)
    (req : Rev0.MessageRequest) (w : World Rev0.Client) :
  Rev0.RoomId req = EmptyString \/ Rev0.From req = EmptyString
  \/ Rev0.Message req = EmptyString ->
  Rev0.PostMessage server req w = (Some (errors_New required_fields_text), w).
Proof.
  intros H. unfold Rev0.PostMessage, Rev0.urlValuesFromRequest. run_go.
  destruct H as [H | [H | H]]; rewrite H; cbn; rewrite ?orb_true_r; reflexivity.
Qed.

(** ** Decoding an object that has no member for a field *)

Lemma store_struct_skip {A : Type} (ty : string)
    (field : string -> json.value -> A -> option json.error -> A * option json.error)
    (members : list (string * json.value)) (v : A) (saved : option json.error) :
  Forall (fun kv => forall v' saved', field (fst kv) (snd kv) v' saved' = (v', saved'))
         members ->
  json.store_struct ty field (json.Object members) v saved = (v, saved).
Proof.
  intros H. cbn. induction H as [| kv members Hkv _ IH]; cbn.
  - reflexivity.
  - rewrite Hkv. exact IH.
Qed.

(** A struct is filled from [null] and from an object only. *)
Lemma store_struct_ok {A : Type} (ty : string)
    (field : string -> json.value -> A -> option json.error -> A * option json.error)
    (j : json.value) (v v' : A) :
  json.store_struct ty field j v None = (v', None) ->
  j = json.Null \/ exists members, j = json.Object members.
Proof.
  destruct j; cbn; intros E; try discriminate; eauto.
Qed.

(** ** RoomList on status 200 *)

(** C6, as the code has it: on status 200 RoomList returns the decoded
    Rooms without error when the body decodes into the rooms struct,
    and no rooms with the error of the decoder when it does not; the
    Lobby body gives the one room; a body that parses as an object
    with no rooms member gives the empty list, and a body nested deeper
    than the scanner allows gives the syntax error. *)
Theorem C6_RoomList_OK (server : http.request -> http.reply)
    (w : World Rev2.Client) (body : string) :
  answered server w (snd (Rev2.RoomList server w)) (http.Response 200 body) ->
  (forall roomsResp : RoomsResponse,
      json.Unmarshal body json.zero = (roomsResp, None) ->
      fst (Rev2.RoomList server w) = (json.elems (Rooms roomsResp), None))
  /\ (forall (roomsResp : RoomsResponse) (err : json.error),
      json.Unmarshal body json.zero = (roomsResp, Some err) ->
      fst (Rev2.RoomList server w) = ([], Some (json_error err)))
  /\ (body = lobby_body -> fst (Rev2.RoomList server w) = ([lobby], None))
  /\ (forall members : list (string * json.value),
      json.parse body = Some (json.Object members) ->
      no_member "Rooms" (json.Object members) ->
      fst (Rev2.RoomList server w) = ([], None))
  /\ (body = deep_body ->
      fst (Rev2.RoomList server w) = ([], Some (json_error json.SyntaxError))).
Proof.
  intros Hans. rewrite (RoomList_reply server w 200 body Hans). cbn [negb Z.eqb].
  change (negb (200 =? http.StatusOK)%Z) with false. cbn iota.
  split; [| split; [| split; [| split]]].
  - intros roomsResp H. rewrite H. reflexivity.
  - intros roomsResp err H. rewrite H. reflexivity.
  - intros ->. vm_compute. reflexivity.
  - intros members Hp Hno. unfold json.Unmarshal. rewrite Hp.
    change (json.store (json.Object members) (json.zero : RoomsResponse) None)
      with (json.store_struct "struct { Rooms []hipchat.Room }" RoomsResponse_field
              (json.Object members) (json.zero : RoomsResponse) None).
    rewrite store_struct_skip; [reflexivity |].
    unfold no_member in Hno. eapply Forall_impl; [exact Hno |].
    intros [k j] Hk v' saved'. cbn [fst snd] in *.
    unfold RoomsResponse_field. rewrite Hk. reflexivity.
  - intros ->. unfold json.Unmarshal. rewrite deep_body_no_parse. reflexivity.
Qed.

(** C6 at the Lobby body and at the empty object. *)
Lemma C6_RoomList_OK_witness :
  fst (Rev2.RoomList (always 200 lobby_body) fresh_world) = ([lobby], None)
  /\ fst (Rev2.RoomList (always 200 "{}") fresh_world) = ([], None).
Proof.
  split.
  - destruct (C6_RoomList_OK (always 200 lobby_body) fresh_world lobby_body)
      as (_ & _ & Hlobby & _).
    + eexists. split; [vm_compute; reflexivity | reflexivity].
    + apply Hlobby. reflexivity.
  - destruct (C6_RoomList_OK (always 200 "{}") fresh_world "{}")
      as (_ & _ & _ & Hnone & _).
    + eexists. split; [vm_compute; reflexivity | reflexivity].
    + apply (Hnone []); [vm_compute; reflexivity | constructor].
Defined.

(** C6 as stated fails: a body that is valid JSON, with a rooms array
    whose room_id is a JSON string, is answered with status 200 and
    RoomList returns the type error of the decoder. *)
Lemma C6_valid_JSON_with_error :
  json.parse text_id_body
  = Some (json.Object
            [("rooms", json.Array
                         [json.Object [("room_id", json.Str "1");
                                       ("name", json.Str "Lobby")]])])
  /\ answered (always 200 text_id_body) fresh_world
       (snd (Rev2.RoomList (always 200 text_id_body) fresh_world))
       (http.Response 200 text_id_body)
  /\ fst (Rev2.RoomList (always 200 text_id_body) fresh_world)
     = ([], Some (json_error (json.UnmarshalTypeError "string" "int"))).
Proof.
  split; [vm_compute; reflexivity |]. split.
  - eexists. split; [vm_compute; reflexivity | reflexivity].
  - vm_compute. reflexivity.
Qed.

Example RoomList_empty_object :
  fst (Rev2.RoomList (always 200 "{}") fresh_world) = ([], None).
Proof. vm_compute. reflexivity. Qed.

Example RoomList_null_rooms :
  fst (Rev2.RoomList (always 200 (js "{'rooms':null}")) fresh_world) = ([], None).
Proof. vm_compute. reflexivity. Qed.

Example RoomList_top_level_array :
  fst (Rev2.RoomList (always 200 "[]") fresh_world)
  = ([], Some (json_error
                 (json.UnmarshalTypeError "array" "struct { Rooms []hipchat.Room }"))).
Proof. vm_compute. reflexivity. Qed.

(** ** PostMessage on a status that is not sent, with no error member *)

Lemma getError_no_error_member (body : string) (j : json.value) (msgResp : StatusResponse) :
  json.parse body = Some j ->
  json.store j (json.zero : StatusResponse) None = (msgResp, None) ->
  no_member "Error" j ->
  Rev2.getError body = Some (HipchatError_value json.zero).
Proof.
  intros Hp Hs Hno. unfold Rev2.getError, json.Unmarshal. rewrite Hp.
  apply store_struct_ok in Hs as [-> | [members ->]].
  - reflexivity.
  - change (json.store (json.Object members) (json.zero : ErrorResponse) None)
      with (json.store_struct "hipchat.ErrorResponse" ErrorResponse_field
              (json.Object members) (json.zero : ErrorResponse) None).
    rewrite store_struct_skip; [reflexivity |].
    unfold no_member in Hno. eapply Forall_impl; [exact Hno |].
    intros [k v] Hk v' saved'. cbn [fst snd] in *.
    unfold ErrorResponse_field. rewrite Hk. reflexivity.
Qed.

(** C7, as the code has it: on the path without AuthTest, for a body
    that is valid JSON and decodes into the status struct with a Status
    other than sent, and that has no member for the Error field, the
    error returned is the zero HipchatError, whose message is empty. *)
Theorem C7_zero_HipchatError (json_text : json.error -> string)
    (server : http.request -> http.reply)
    (req : Rev2.MessageRequest) (w : World Rev2.Client)
    (status : Z) (body : string) (j : json.value) (msgResp : StatusResponse) :
  Rev2.AuthTest req = false ->
  required_present req ->
  answered server w (snd (Rev2.PostMessage server req w)) (http.Response status body) ->
  json.parse body = Some j ->
  json.store j (json.zero : StatusResponse) None = (msgResp, None) ->
  Status msgResp <> "sent" ->
  no_member "Error" j ->
  fst (Rev2.PostMessage server req w)
  = Some (HipchatError_value {| Code := 0; Type_ := EmptyString; Message := EmptyString |})
  /\ forall e, fst (Rev2.PostMessage server req w) = Some e ->
               Error json_text e = EmptyString.
Proof.
  intros Hauth Hreq Hans Hp Hs Hne Hno.
  assert (Hu : json.Unmarshal body (json.zero : StatusResponse) = (msgResp, None)).
  { unfold json.Unmarshal. rewrite Hp. exact Hs. }
  destruct (PostMessage_status_path server req w status body msgResp Hauth Hreq Hans Hu)
    as [_ Hget].
  rewrite (Hget Hne), (getError_no_error_member body j msgResp Hp Hs Hno).
  split; [reflexivity |]. intros e [= <-]. reflexivity.
Qed.

(** C7 at a body with status queued and nothing else. *)
Lemma C7_zero_HipchatError_witness :
  fst (Rev2.PostMessage (always 200 (js "{'status':'queued'}")) sample_request fresh_world)
  = Some (HipchatError_value {| Code := 0; Type_ := EmptyString; Message := EmptyString |})
  /\ forall e,
       fst (Rev2.PostMessage (always 200 (js "{'status':'queued'}")) sample_request
              fresh_world) = Some e ->
       Error silent_text e = EmptyString.
Proof.
  apply (C7_zero_HipchatError silent_text (always 200 (js "{'status':'queued'}"))
           sample_request fresh_world 200 (js "{'status':'queued'}")
           (json.Object [("status", json.Str "queued")]) {| Status := "queued" |}).
  - reflexivity.
  - repeat split; discriminate.
  - eexists. split; [vm_compute; reflexivity | reflexivity].
  - vm_compute. reflexivity.
  - vm_compute. reflexivity.
  - discriminate.
  - repeat constructor.
Defined.

(** C7 as stated fails: the body is valid JSON, its status is the
    number 5 and not sent, it has no error member, and PostMessage
    returns the type error of the decoder, not a HipchatError. *)
Lemma C7_numeric_status :
  json.parse numeric_status_body = Some (json.Object [("status", json.Number "5")])
  /\ no_member "Error" (json.Object [("status", json.Number "5")])
  /\ answered (always 200 numeric_status_body) fresh_world
       (snd (Rev2.PostMessage (always 200 numeric_status_body) sample_request fresh_world))
       (http.Response 200 numeric_status_body)
  /\ fst (Rev2.PostMessage (always 200 numeric_status_body) sample_request fresh_world)
     = Some (json_error (json.UnmarshalTypeError "number" "string")).
Proof.
  split; [vm_compute; reflexivity |]. split; [repeat constructor |]. split.
  - eexists. split; [vm_compute; reflexivity | reflexivity].
  - vm_compute. reflexivity.
Qed.

(** ** The request URL *)

Lemma upperhex_safe (c : ascii) :
  url_safe (url.upperhex (N.shiftr (byte_val c) 4)) = true
  /\ url_safe (url.upperhex (N.land (byte_val c) 15)) = true.
Proof.
  destruct c as [[|] [|] [|] [|] [|] [|] [|] [|]]; split; vm_compute; reflexivity.
Qed.

Lemma unescaped_safe (c : ascii) : url.shouldEscape c = false -> url_safe c = true.
Proof.
  unfold url.shouldEscape, url_safe.
  destruct (in_range "a" "z" c || in_range "A" "Z" c || in_range "0" "9" c); [reflexivity |].
  cbn [orb].
  destruct (Ascii.eqb c "-" || Ascii.eqb c "_" || Ascii.eqb c "." || Ascii.eqb c "~");
    [reflexivity | discriminate].
Qed.

Lemma QueryEscape_cons (c : ascii) (t : string) :
  url.QueryEscape (String c t) =
  if Ascii.eqb c " " then String "+" (url.QueryEscape t)
  else if url.shouldEscape c then
    String "%" (String (url.upperhex (N.shiftr (byte_val c) 4))
                  (String (url.upperhex (N.land (byte_val c) 15)) (url.QueryEscape t)))
  else String c (url.QueryEscape t).
Proof. reflexivity. Qed.

(** What [QueryEscape] returns has none of the bytes that end or split
    a query parameter: letters, digits, [-_.~], [%] and [+] only. *)
Lemma QueryEscape_safe (s : string) :
  forallb url_safe (list_ascii_of_string (url.QueryEscape s)) = true.
Proof.
  induction s as [| c s IH]; [reflexivity |].
  rewrite QueryEscape_cons.
  destruct (Ascii.eqb c " "); [exact IH |].
  destruct (url.shouldEscape c) eqn:E.
  - destruct (upperhex_safe c) as [H1 H2].
    cbn [list_ascii_of_string forallb]. rewrite H1, H2, IH. reflexivity.
  - cbn [list_ascii_of_string forallb]. rewrite (unescaped_safe c E), IH. reflexivity.
Qed.

(** The current revision: each method calls its path under the Client's
    BaseURL (the default when it was empty) with the escaped token. *)
Lemma current_request_uris {Message_t : Type} `{json.Target Message_t}
    (server : http.request -> http.reply) (req : Rev2.MessageRequest)
    (id date tz : string) (w : World Rev2.Client) (payload : url.Values) :
  Rev2.urlValuesFromMessageRequest req = (payload, None) ->
  Rev2.AuthTest req = false ->
  let c := defaulted (self w) in
  trace (snd (Rev2.PostMessage server req w))
  = (trace w ++ [http.PostForm (Rev2.BaseURL c ++ "/rooms/message?auth_token="
                                ++ url.QueryEscape (Rev2.AuthToken c)) payload])%list
  /\ trace (snd (Rev2.RoomList server w))
     = (trace w ++ [http.Get (Rev2.BaseURL c ++ "/rooms/list?auth_token="
                              ++ url.QueryEscape (Rev2.AuthToken c))])%list
  /\ trace (snd (Rev2.RoomHistory (Message_t := Message_t) server id date tz w))
     = (trace w ++ [http.Get (Rev2.BaseURL c ++ "/rooms/history?auth_token="
                              ++ url.QueryEscape (Rev2.AuthToken c)
                              ++ "&room_id=" ++ url.QueryEscape id
                              ++ "&date=" ++ url.QueryEscape date
                              ++ "&timezone=" ++ url.QueryEscape tz)])%list.
Proof.
  intros Hv Hauth c.
  rewrite PostMessage_world, RoomList_world, RoomHistory_world, Hv.
  unfold message_uri. rewrite Hauth. repeat split; reflexivity.
Qed.

(** C8 on the first revision: PostMessage of src/hipchat.go puts the
    token into the URL as it is, where QueryEscape of the same token,
    which RoomList of part_000 and PostMessage of part_001 call, is
    another text. *)
Theorem C8_first_PostMessage_raw_token :
  trace (snd (Rev0.PostMessage (always 200 sent_body) first_request
                {| self := {| Rev0.AuthToken := reserved_token |}; trace := [] |}))
  = [http.PostForm "https://api.hipchat.com/v1/rooms/message?auth_token=a&b c"
       (fst (Rev0.urlValuesFromRequest first_request))]
  /\ url.QueryEscape reserved_token = "a%26b+c"
  /\ trace (snd (Rev1.RoomList (always 200 lobby_body)
                   {| self := {| Rev0.AuthToken := reserved_token |}; trace := [] |}))
     = [http.Get "https://api.hipchat.com/v1/rooms/list?auth_token=a%26b+c"]
  /\ trace (snd (Rev2.PostMessage (always 200 sent_body) sample_request
                   {| self := Rev2.NewClient reserved_token; trace := [] |}))
     = [http.PostForm "https://api.hipchat.com/v1/rooms/message?auth_token=a%26b+c"
          (fst (Rev2.urlValuesFromMessageRequest sample_request))].
Proof. repeat split; vm_compute; reflexivity. Qed.

(** ** The two revisions of RoomList *)

(** C10: for a Client whose BaseURL is the default endpoint, RoomList of
    part_000 and RoomList of part_001 make the same call, and for
    every reply return the same rooms and errors with the same message
    (or both none); the Client is left as it was. *)
Theorem C10_RoomList_revisions (json_text : json.error -> string)
    (server : http.request -> http.reply) (c : Rev2.Client)
    (calls : list http.request) :
  Rev2.BaseURL c = Rev2.defaultBaseURL ->
  fst (fst (Rev1.RoomList server
              {| self := {| Rev0.AuthToken := Rev2.AuthToken c |}; trace := calls |}))
  = fst (fst (Rev2.RoomList server {| self := c; trace := calls |}))
  /\ same_error json_text
       (snd (fst (Rev1.RoomList server
                    {| self := {| Rev0.AuthToken := Rev2.AuthToken c |}; trace := calls |})))
       (snd (fst (Rev2.RoomList server {| self := c; trace := calls |})))
  /\ trace (snd (Rev1.RoomList server
                   {| self := {| Rev0.AuthToken := Rev2.AuthToken c |}; trace := calls |}))
     = trace (snd (Rev2.RoomList server {| self := c; trace := calls |}))
  /\ self (snd (Rev2.RoomList server {| self := c; trace := calls |})) = c.
Proof.
  intros Hbase. destruct c as [tok base]. cbn in Hbase. subst base.
  unfold Rev1.RoomList, Rev2.RoomList, Rev2.getError. run_go.
  unfold Rev0.baseURL, Rev2.defaultBaseURL, http.StatusOK.
  cbn [len String.length Nat.eqb Rev2.BaseURL Rev2.AuthToken Rev0.AuthToken fst snd self trace].
  destruct (server _) as [text | code text | code body]; cbn [fst snd self trace].
  1, 2: repeat split; reflexivity.
  destruct (negb (code =? 200)%Z).
  - destruct (json.Unmarshal body (json.zero : ErrorResponse)) as [errResp [err|]];
      cbn [fst snd self trace]; repeat split; reflexivity.
  - destruct (json.Unmarshal body (json.zero : RoomsResponse)) as [roomsResp [err|]];
      cbn [fst snd self trace]; repeat split; reflexivity.
Qed.

(** C10 at a Client made by NewClient and status 401. *)
Lemma C10_RoomList_revisions_witness :
  fst (fst (Rev1.RoomList (always 401 unauthorized_body)
              {| self := {| Rev0.AuthToken := "s3cr3t token" |}; trace := [] |}))
  = fst (fst (Rev2.RoomList (always 401 unauthorized_body) fresh_world))
  /\ same_error silent_text
       (snd (fst (Rev1.RoomList (always 401 unauthorized_body)
                    {| self := {| Rev0.AuthToken := "s3cr3t token" |}; trace := [] |})))
       (snd (fst (Rev2.RoomList (always 401 unauthorized_body) fresh_world)))
  /\ trace (snd (Rev1.RoomList (always 401 unauthorized_body)
                   {| self := {| Rev0.AuthToken := "s3cr3t token" |}; trace := [] |}))
     = trace (snd (Rev2.RoomList (always 401 unauthorized_body) fresh_world))
  /\ self (snd (Rev2.RoomList (always 401 unauthorized_body) fresh_world))
     = Rev2.NewClient "s3cr3t token".
Proof.
  apply (C10_RoomList_revisions silent_text (always 401 unauthorized_body)
           (Rev2.NewClient "s3cr3t token") []).
  reflexivity.
Defined.

Example RoomList_revisions_unauthorized :
  snd (fst (Rev1.RoomList (always 401 unauthorized_body)
              {| self := {| Rev0.AuthToken := "s3cr3t token" |}; trace := [] |}))
  = Some (errors_New "bad token")
  /\ snd (fst (Rev2.RoomList (always 401 unauthorized_body) fresh_world))
     = Some (HipchatError_value
               {| Code := 401; Type_ := "Unauthorized"; Message := "bad token" |}).
Proof. split; vm_compute; reflexivity. Qed.

(** * Further properties of the package *)

(** ** One call per method *)

(** X1: RoomList and RoomHistory add exactly one GET to the trace, and
    PostMessage at most one POST, exactly one when the required fields
    are present; whatever the reply, nothing is called twice and the
    earlier trace stays. *)
Theorem X1_one_call_per_method {Message_t : Type} `{json.Target Message_t}
    (server : http.request -> http.reply) (req : Rev2.MessageRequest)
    (id date tz : string) (w : World Rev2.Client) :
  (exists uri, trace (snd (Rev2.RoomList server w)) = (trace w ++ [http.Get uri])%list)
  /\ (exists uri,
        trace (snd (Rev2.RoomHistory (Message_t := Message_t) server id date tz w))
        = (trace w ++ [http.Get uri])%list)
  /\ (exists calls,
        trace (snd (Rev2.PostMessage server req w)) = (trace w ++ calls)%list
        /\ (calls = [] \/ exists uri payload, calls = [http.PostForm uri payload])
        /\ (calls = [] <-> required_missing req)).
Proof.
  rewrite RoomList_world, RoomHistory_world, PostMessage_world. cbn [trace].
  split; [eexists; reflexivity |]. split; [eexists; reflexivity |].
  eexists. split; [reflexivity |].
  destruct (Rev2.urlValuesFromMessageRequest req) as [payload [err |]] eqn:E.
  - split; [left; reflexivity |]. split; [intros _ | reflexivity].
    unfold required_missing.
    destruct (string_dec (Rev2.RoomId req) EmptyString) as [? | H1]; [tauto |].
    destruct (string_dec (Rev2.From req) EmptyString) as [? | H2]; [tauto |].
    destruct (string_dec (Rev2.Message req) EmptyString) as [? | H3]; [tauto |].
    pose proof (urlValues_present req (conj H1 (conj H2 H3))) as Hp.
    rewrite E in Hp. discriminate Hp.
  - split; [right; eauto |]. split; [discriminate |].
    intros Hm. rewrite (urlValues_missing req Hm) in E. discriminate E.
Qed.

(** ** Transport failures *)

Lemma PostMessage_any_reply (server : http.request -> http.reply)
    (req : Rev2.MessageRequest) (w : World Rev2.Client) (rep : http.reply) :
  required_present req ->
  answered server w (snd (Rev2.PostMessage server req w)) rep ->
  fst (Rev2.PostMessage server req w) =
  match rep with
  | http.RoundTripError err => Some (net_error err)
  | http.ReadError _ err => Some (net_error err)
  | http.Response _ body =>
      if Rev2.AuthTest req then
        match json.Unmarshal body (json.zero : AuthResponse) with
        | (_, Some err) => Some (json_error err)
        | (msgResp, None) =>
            match AuthResponse_Error msgResp with
            | Some e => Some (HipchatError_pointer e)
            | None => None
            end
        end
      else
        match json.Unmarshal body (json.zero : StatusResponse) with
        | (_, Some err) => Some (json_error err)
        | (msgResp, None) =>
            if negb (String.eqb (Status msgResp) ResponseStatusSent)
            then Rev2.getError body else None
        end
  end.
Proof.
  intros Hreq Hans. pose proof (urlValues_present req Hreq) as Hv.
  destruct (Rev2.urlValuesFromMessageRequest req) as [payload err] eqn:Hp.
  cbn in Hv. subst err.
  rewrite PostMessage_world, Hp in Hans. apply answered_call in Hans. revert Hans.
  unfold Rev2.PostMessage, defaulted, message_uri. run_go. rewrite Hp.
  destruct (len (Rev2.BaseURL (self w)) =? 0)%nat; cbn [fst snd self trace];
    intros ->; split_matches; reflexivity.
Qed.

Lemma RoomList_any_reply (server : http.request -> http.reply)
    (w : World Rev2.Client) (rep : http.reply) :
  answered server w (snd (Rev2.RoomList server w)) rep ->
  fst (Rev2.RoomList server w) =
  match rep with
  | http.RoundTripError err => ([], Some (net_error err))
  | http.ReadError _ err => ([], Some (net_error err))
  | http.Response status body =>
      if negb (status =? http.StatusOK)%Z then ([], Rev2.getError body)
      else
        match json.Unmarshal body (json.zero : RoomsResponse) with
        | (_, Some err) => ([], Some (json_error err))
        | (roomsResp, None) => (json.elems (Rooms roomsResp), None)
        end
  end.
Proof.
  intros Hans. rewrite RoomList_world in Hans.
  apply answered_call in Hans. revert Hans.
  unfold Rev2.RoomList, defaulted, list_uri. run_go.
  destruct (len (Rev2.BaseURL (self w)) =? 0)%nat; cbn [fst snd self trace];
    intros ->; split_matches; reflexivity.
Qed.

Lemma RoomHistory_any_reply {Message_t : Type} `{json.Target Message_t}
    (server : http.request -> http.reply) (id date tz : string)
    (w : World Rev2.Client) (rep : http.reply) :
  answered server w (snd (Rev2.RoomHistory (Message_t := Message_t) server id date tz w))
    rep ->
  fst (Rev2.RoomHistory (Message_t := Message_t) server id date tz w) =
  match rep with
  | http.RoundTripError err => ([], Some (net_error err))
  | http.ReadError _ err => ([], Some (net_error err))
  | http.Response status body =>
      if negb (status =? http.StatusOK)%Z then ([], Rev2.getError body)
      else
        match json.Unmarshal body (json.zero : Rev2.MessagesResponse) with
        | (_, Some err) => ([], Some (json_error err))
        | (msgResp, None) => (json.elems (Rev2.Messages msgResp), None)
        end
  end.
Proof.
  intros Hans. rewrite RoomHistory_world in Hans.
  apply answered_call in Hans. revert Hans.
  unfold Rev2.RoomHistory, defaulted, history_uri. run_go.
  destruct (len (Rev2.BaseURL (self w)) =? 0)%nat; cbn [fst snd self trace];
    intros ->; split_matches; reflexivity.
Qed.

(** X2: when the call fails or the body cannot be read, each method
    returns that error itself, with no elements, whatever the status
    code read before. *)
Theorem X2_transport_errors {Message_t : Type} `{json.Target Message_t}
    (server : http.request -> http.reply) (req : Rev2.MessageRequest)
    (id date tz : string) (w : World Rev2.Client) (rep : http.reply) (text : string) :
  failure_text rep = Some text ->
  (required_present req ->
   answered server w (snd (Rev2.PostMessage server req w)) rep ->
   fst (Rev2.PostMessage server req w) = Some (net_error text))
  /\ (answered server w (snd (Rev2.RoomList server w)) rep ->
      fst (Rev2.RoomList server w) = ([], Some (net_error text)))
  /\ (answered server w
        (snd (Rev2.RoomHistory (Message_t := Message_t) server id date tz w)) rep ->
      fst (Rev2.RoomHistory (Message_t := Message_t) server id date tz w)
      = ([], Some (net_error text))).
Proof.
  intros Hf. repeat split.
  - intros Hreq Hans. rewrite (PostMessage_any_reply server req w rep Hreq Hans).
    destruct rep; cbn in Hf; congruence.
  - intros Hans. rewrite (RoomList_any_reply server w rep Hans).
    destruct rep; cbn in Hf; congruence.
  - intros Hans. rewrite (RoomHistory_any_reply server id date tz w rep Hans).
    destruct rep; cbn in Hf; congruence.
Qed.

(** X2 at a server that cannot be reached. *)
Lemma X2_transport_errors_witness :
  fst (Rev2.PostMessage unreachable sample_request fresh_world)
  = Some (net_error "dial tcp: connection refused")
  /\ fst (Rev2.RoomList unreachable fresh_world)
     = ([], Some (net_error "dial tcp: connection refused"))
  /\ fst (Rev2.RoomHistory (Message_t := Room) unreachable "1" "2013-06-01" "UTC"
            fresh_world)
     = ([], Some (net_error "dial tcp: connection refused")).
Proof.
  destruct (X2_transport_errors (Message_t := Room) unreachable sample_request
              "1" "2013-06-01" "UTC" fresh_world
              (http.RoundTripError "dial tcp: connection refused")
              "dial tcp: connection refused" eq_refl)
    as (Hpost & Hlist & Hhistory).
  split; [| split].
  - apply Hpost; [repeat split; discriminate |].
    eexists. split; [vm_compute; reflexivity | reflexivity].
  - apply Hlist. eexists. split; [vm_compute; reflexivity | reflexivity].
  - apply Hhistory. eexists. split; [vm_compute; reflexivity | reflexivity].
Defined.

(** ** PostMessage and the status code *)

(** X3: PostMessage never reads the status code: two replies with the
    same body and any two status codes give the same result. *)
Theorem X3_PostMessage_ignores_status_code
    (server1 server2 : http.request -> http.reply) (req : Rev2.MessageRequest)
    (w1 w2 : World Rev2.Client) (status1 status2 : Z) (body : string) :
  required_present req ->
  answered server1 w1 (snd (Rev2.PostMessage server1 req w1))
    (http.Response status1 body) ->
  answered server2 w2 (snd (Rev2.PostMessage server2 req w2))
    (http.Response status2 body) ->
  fst (Rev2.PostMessage server1 req w1) = fst (Rev2.PostMessage server2 req w2).
Proof.
  intros Hreq H1 H2.
  rewrite (PostMessage_any_reply server1 req w1 _ Hreq H1).
  rewrite (PostMessage_any_reply server2 req w2 _ Hreq H2).
  reflexivity.
Qed.

(** X3 at status 200 and status 500 with the body of a sent message. *)
Lemma X3_PostMessage_ignores_status_code_witness :
  fst (Rev2.PostMessage (always 200 sent_body) sample_request fresh_world)
  = fst (Rev2.PostMessage (always 500 sent_body) sample_request bare_world).
Proof.
  apply (X3_PostMessage_ignores_status_code (always 200 sent_body) (always 500 sent_body)
           sample_request fresh_world bare_world 200 500 sent_body).
  - repeat split; discriminate.
  - eexists. split; [vm_compute; reflexivity | reflexivity].
  - eexists. split; [vm_compute; reflexivity | reflexivity].
Defined.

Example PostMessage_sent_on_500 :
  fst (Rev2.PostMessage (always 500 sent_body) sample_request fresh_world) = None.
Proof. vm_compute. reflexivity. Qed.

(** ** The AuthTest path *)

(** X4: with AuthTest set and a body that decodes into AuthResponse,
    PostMessage returns nil when the Error pointer is nil and the
    HipchatError it points to otherwise; the Status of the body plays
    no part, a body that parses as an object with neither an error nor
    a success member gives nil, and a body nested deeper than the
    scanner allows gives the syntax error. *)
Theorem X4_AuthTest_result (json_text : json.error -> string)
    (server : http.request -> http.reply) (req : Rev2.MessageRequest)
    (w : World Rev2.Client) (status : Z) (body : string) :
  Rev2.AuthTest req = true ->
  required_present req ->
  answered server w (snd (Rev2.PostMessage server req w)) (http.Response status body) ->
  (forall msgResp : AuthResponse,
      json.Unmarshal body json.zero = (msgResp, None) ->
      (fst (Rev2.PostMessage server req w) = None <-> AuthResponse_Error msgResp = None)
      /\ (forall e, AuthResponse_Error msgResp = Some e ->
            fst (Rev2.PostMessage server req w) = Some (HipchatError_pointer e)
            /\ Error json_text (HipchatError_pointer e) = Message e))
  /\ (forall (msgResp : AuthResponse) (err : json.error),
      json.Unmarshal body json.zero = (msgResp, Some err) ->
      fst (Rev2.PostMessage server req w) = Some (json_error err))
  /\ (forall members,
      json.parse body = Some (json.Object members) ->
      no_member "Error" (json.Object members) ->
      no_member "Success" (json.Object members) ->
      fst (Rev2.PostMessage server req w) = None)
  /\ (body = deep_body ->
      fst (Rev2.PostMessage server req w) = Some (json_error json.SyntaxError)).
Proof.
  intros Hauth Hreq Hans.
  rewrite (PostMessage_any_reply server req w _ Hreq Hans), Hauth.
  split; [| split; [| split]]; [repeat split | | |].
  - rewrite H. destruct (AuthResponse_Error msgResp); [discriminate | reflexivity].
  - rewrite H. intros ->. reflexivity.
  - rewrite H, H0. reflexivity.
  - intros msgResp err H. rewrite H. reflexivity.
  - intros members Hp Hno1 Hno2. unfold json.Unmarshal. rewrite Hp.
    change (json.store (json.Object members) (json.zero : AuthResponse) None)
      with (json.store_struct "hipchat.AuthResponse" AuthResponse_field
              (json.Object members) (json.zero : AuthResponse) None).
    rewrite store_struct_skip; [reflexivity |].
    unfold no_member in Hno1, Hno2. rewrite Forall_forall in Hno1, Hno2.
    apply Forall_forall. intros [k j] Hin v' saved'. cbn [fst snd].
    pose proof (Hno1 _ Hin) as He. pose proof (Hno2 _ Hin) as Hs.
    cbn [fst] in He, Hs. unfold AuthResponse_field. rewrite He, Hs. reflexivity.
  - intros ->. unfold json.Unmarshal. rewrite deep_body_no_parse. reflexivity.
Qed.

(** X4 at a body with a status other than sent and no error member. *)
Lemma X4_AuthTest_result_witness :
  fst (Rev2.PostMessage (always 200 failed_status_body) auth_request fresh_world) = None.
Proof.
  destruct (X4_AuthTest_result silent_text (always 200 failed_status_body) auth_request
              fresh_world 200 failed_status_body)
    as (_ & _ & Hnone & _).
  - reflexivity.
  - repeat split; discriminate.
  - eexists. split; [vm_compute; reflexivity | reflexivity].
  - apply (Hnone [("status", json.Str "failed")]);
      [vm_compute; reflexivity | repeat constructor | repeat constructor].
Defined.

(** ** AuthTest and the request *)

(** X5: the AuthTest flag reaches the URL only: the form parameters are
    those of the request without the flag, which are those the first
    revision builds, and the URL is the one without the flag followed
    by the auth_test parameter. *)
Theorem X5_AuthTest_in_URL_only (server : http.request -> http.reply)
    (req : Rev0.MessageRequest) (w : World Rev2.Client) :
  first_required_present req ->
  Rev2.urlValuesFromMessageRequest (upgrade true req) = Rev0.urlValuesFromRequest req
  /\ Rev2.urlValuesFromMessageRequest (upgrade false req) = Rev0.urlValuesFromRequest req
  /\ exists uri,
       trace (snd (Rev2.PostMessage server (upgrade false req) w))
       = (trace w ++ [http.PostForm uri (fst (Rev0.urlValuesFromRequest req))])%list
       /\ trace (snd (Rev2.PostMessage server (upgrade true req) w))
          = (trace w ++ [http.PostForm (uri ++ "&auth_test=true")
                           (fst (Rev0.urlValuesFromRequest req))])%list.
Proof.
  intros (H1 & H2 & H3).
  assert (E : forall b, Rev2.urlValuesFromMessageRequest (upgrade b req)
                        = Rev0.urlValuesFromRequest req) by reflexivity.
  split; [apply E |]. split; [apply E |].
  assert (Hp : snd (Rev0.urlValuesFromRequest req) = None).
  { rewrite <- (E false). apply urlValues_present. repeat split; assumption. }
  rewrite !PostMessage_world, !E.
  destruct (Rev0.urlValuesFromRequest req) as [payload err]. cbn in Hp. subst err.
  cbn [trace fst]. unfold message_uri. cbn [Rev2.AuthTest upgrade].
  eexists. split; reflexivity.
Qed.

(** X5 at the request of the README. *)
Lemma X5_AuthTest_in_URL_only_witness :
  Rev2.urlValuesFromMessageRequest (upgrade true first_request)
  = Rev0.urlValuesFromRequest first_request
  /\ Rev2.urlValuesFromMessageRequest (upgrade false first_request)
     = Rev0.urlValuesFromRequest first_request
  /\ exists uri,
       trace (snd (Rev2.PostMessage (always 200 sent_body) (upgrade false first_request)
                     fresh_world))
       = [http.PostForm uri (fst (Rev0.urlValuesFromRequest first_request))]
       /\ trace (snd (Rev2.PostMessage (always 200 sent_body)
                        (upgrade true first_request) fresh_world))
          = [http.PostForm (uri ++ "&auth_test=true")
               (fst (Rev0.urlValuesFromRequest first_request))].
Proof.
  apply (X5_AuthTest_in_URL_only (always 200 sent_body) first_request fresh_world).
  repeat split; discriminate.
Defined.

(** ** NewClient and the Client without a BaseURL *)

(** X6: a Client with only its AuthToken set and the Client that
    NewClient makes for the same token are interchangeable: each method
    makes the same call and returns the same, and leaves the Client
    that NewClient makes. *)
Theorem X6_zero_BaseURL_as_NewClient {Message_t : Type} `{json.Target Message_t}
    (server : http.request -> http.reply) (req : Rev2.MessageRequest)
    (id date tz : string) (authToken : string) (calls : list http.request) :
  Rev2.PostMessage server req
    {| self := {| Rev2.AuthToken := authToken; Rev2.BaseURL := EmptyString |};
       trace := calls |}
  = Rev2.PostMessage server req {| self := Rev2.NewClient authToken; trace := calls |}
  /\ Rev2.RoomList server
       {| self := {| Rev2.AuthToken := authToken; Rev2.BaseURL := EmptyString |};
          trace := calls |}
     = Rev2.RoomList server {| self := Rev2.NewClient authToken; trace := calls |}
  /\ Rev2.RoomHistory (Message_t := Message_t) server id date tz
       {| self := {| Rev2.AuthToken := authToken; Rev2.BaseURL := EmptyString |};
          trace := calls |}
     = Rev2.RoomHistory (Message_t := Message_t) server id date tz
         {| self := Rev2.NewClient authToken; trace := calls |}
  /\ self (snd (Rev2.RoomList server
                  {| self := {| Rev2.AuthToken := authToken;
                                Rev2.BaseURL := EmptyString |};
                     trace := calls |}))
     = Rev2.NewClient authToken.
Proof.
  repeat split; try reflexivity.
  rewrite RoomList_world. reflexivity.
Qed.

(** ** The Client over a sequence of calls *)

Lemma defaulted_idempotent (c : Rev2.Client) : defaulted (defaulted c) = defaulted c.
Proof.
  unfold defaulted. destruct c as [tok [| a base]]; reflexivity.
Qed.

Lemma run_self {Message_t : Type} `{json.Target Message_t}
    (server : http.request -> http.reply) (w : World Rev2.Client)
    (m : method Message_t) :
  self (run server w m) = defaulted (self w).
Proof.
  destruct m; cbn [run];
    rewrite ?PostMessage_world, ?RoomList_world, ?RoomHistory_world; reflexivity.
Qed.

(** X7: after any sequence of one or more calls, in any order and
    whatever the replies, the Client is the Client at the start with
    the default filled in: its AuthToken is the same and its BaseURL is
    not empty. *)
Theorem X7_client_over_calls {Message_t : Type} `{json.Target Message_t}
    (server : http.request -> http.reply) (w : World Rev2.Client)
    (m : method Message_t) (ms : list (method Message_t)) :
  self (fold_left (run server) (m :: ms) w) = defaulted (self w)
  /\ Rev2.AuthToken (self (fold_left (run server) (m :: ms) w))
     = Rev2.AuthToken (self w)
  /\ (len (Rev2.BaseURL (self (fold_left (run server) (m :: ms) w))) =? 0)%nat = false.
Proof.
  assert (Hself : self (fold_left (run server) (m :: ms) w) = defaulted (self w)).
  { cbn [fold_left]. pose proof (run_self server w m) as Hw.
    revert Hw. generalize (run server w m) as w1. clear m.
    induction ms as [| m ms IH]; intros w1 Hw; cbn [fold_left]; [exact Hw |].
    apply IH. rewrite run_self, Hw. apply defaulted_idempotent. }
  rewrite Hself. split; [reflexivity |].
  unfold defaulted. destruct (self w) as [tok [| a base]]; split; reflexivity.
Qed.

(** ** PostMessage of the first revision *)

Lemma first_urlValues_present (req : Rev0.MessageRequest) :
  first_required_present req -> snd (Rev0.urlValuesFromRequest req) = None.
Proof.
  intros (H1 & H2 & H3).
  change (Rev0.urlValuesFromRequest req)
    with (Rev2.urlValuesFromMessageRequest (upgrade false req)).
  apply urlValues_present. repeat split; assumption.
Qed.

Lemma first_PostMessage_world (server : http.request -> http.reply)
    (req : Rev0.MessageRequest) (w : World Rev0.Client) :
  first_required_present req ->
  snd (Rev0.PostMessage server req w) =
  {| self := self w;
     trace := trace w ++
       [http.PostForm (Rev0.baseURL ++ "/rooms/message?auth_token="
                       ++ Rev0.AuthToken (self w))
          (fst (Rev0.urlValuesFromRequest req))] |}.
Proof.
  intros Hreq. pose proof (first_urlValues_present req Hreq) as Hv.
  unfold Rev0.PostMessage. run_go.
  destruct (Rev0.urlValuesFromRequest req) as [payload err]. cbn in Hv. subst err.
  cbn [fst]. split_matches; reflexivity.
Qed.

Lemma first_PostMessage_any_reply (server : http.request -> http.reply)
    (req : Rev0.MessageRequest) (w : World Rev0.Client) (rep : http.reply) :
  first_required_present req ->
  answered server w (snd (Rev0.PostMessage server req w)) rep ->
  fst (Rev0.PostMessage server req w) =
  match rep with
  | http.RoundTripError err => Some (net_error err)
  | http.ReadError _ err => Some (net_error err)
  | http.Response _ body =>
      match json.Unmarshal body (json.zero : Rev0.MessageResponse) with
      | (_, Some err) => Some (json_error err)
      | (response, None) =>
          if negb (String.eqb (Rev0.Status response) ResponseStatusSent)
          then Some (errors_New not_sent_text) else None
      end
  end.
Proof.
  intros Hreq Hans. rewrite (first_PostMessage_world server req w Hreq) in Hans.
  apply answered_call in Hans. revert Hans.
  pose proof (first_urlValues_present req Hreq) as Hv.
  unfold Rev0.PostMessage. run_go.
  destruct (Rev0.urlValuesFromRequest req) as [payload err]. cbn in Hv. subst err.
  cbn [fst snd self trace]. intros ->. split_matches; reflexivity.
Qed.

(** X8: PostMessage of the first revision, on a body that decodes into
    MessageResponse, returns nil exactly when Status is sent, and
    otherwise one fixed error, the same for every body: what the body
    says of the failure is not read. *)
Theorem X8_first_PostMessage_status (json_text : json.error -> string)
    (server : http.request -> http.reply) (req : Rev0.MessageRequest)
    (w : World Rev0.Client) (status : Z) (body : string)
    (response : Rev0.MessageResponse) :
  first_required_present req ->
  answered server w (snd (Rev0.PostMessage server req w)) (http.Response status body) ->
  json.Unmarshal body (json.zero : Rev0.MessageResponse) = (response, None) ->
  (fst (Rev0.PostMessage server req w) = None <-> Rev0.Status response = "sent")
  /\ (Rev0.Status response <> "sent" ->
      fst (Rev0.PostMessage server req w) = Some (errors_New not_sent_text)
      /\ Error json_text (errors_New not_sent_text)
         = "PostMessage: response 'status' field was not 'sent'.").
Proof.
  intros Hreq Hans Hbody.
  rewrite (first_PostMessage_any_reply server req w _ Hreq Hans), Hbody.
  destruct (String.eqb_spec (Rev0.Status response) ResponseStatusSent) as [Hs | Hs];
    cbn [negb].
  - split; [tauto |]. intros Hne. contradiction.
  - split; [split; [discriminate | intros Hn; contradiction] |].
    intros _. split; reflexivity.
Qed.

(** X8 at the body with status queued and an error of message x. *)
Lemma X8_first_PostMessage_status_witness :
  fst (Rev0.PostMessage (always 200 queued_body) first_request first_world)
  = Some (errors_New not_sent_text)
  /\ Error silent_text (errors_New not_sent_text)
     = "PostMessage: response 'status' field was not 'sent'.".
Proof.
  destruct (X8_first_PostMessage_status silent_text (always 200 queued_body)
              first_request first_world 200 queued_body {| Rev0.Status := "queued" |})
    as (_ & Hfixed).
  - repeat split; discriminate.
  - eexists. split; [vm_compute; reflexivity | reflexivity].
  - vm_compute. reflexivity.
  - apply Hfixed. discriminate.
Defined.

Example first_PostMessage_sent :
  fst (Rev0.PostMessage (always 200 sent_body) first_request first_world) = None.
Proof. vm_compute. reflexivity. Qed.

(** ** The first and the current PostMessage *)

Lemma QueryEscape_plain (s : string) : plain s = true -> url.QueryEscape s = s.
Proof.
  unfold plain. induction s as [| c s IH]; [reflexivity |].
  cbn [list_ascii_of_string forallb]. rewrite QueryEscape_cons.
  destruct (Ascii.eqb c " "); [discriminate |].
  destruct (url.shouldEscape c); [discriminate |].
  cbn [negb andb]. intros Hs. rewrite (IH Hs). reflexivity.
Qed.

(** The members of an object fill MessageResponse and the status struct
    alike. *)
Lemma status_members_agree (members : list (string * json.value))
    (v0 : Rev0.MessageResponse) (v2 : StatusResponse) (saved : option json.error) :
  Rev0.Status v0 = Status v2 ->
  Rev0.Status
    (fst (fold_left (fun st kv => Rev0.MessageResponse_field (fst kv) (snd kv)
                                    (fst st) (snd st)) members (v0, saved)))
  = Status
      (fst (fold_left (fun st kv => StatusResponse_field (fst kv) (snd kv)
                                      (fst st) (snd st)) members (v2, saved)))
  /\ snd (fold_left (fun st kv => Rev0.MessageResponse_field (fst kv) (snd kv)
                                    (fst st) (snd st)) members (v0, saved))
     = snd (fold_left (fun st kv => StatusResponse_field (fst kv) (snd kv)
                                      (fst st) (snd st)) members (v2, saved)).
Proof.
  revert v0 v2 saved. induction members as [| [k j] members IH]; intros v0 v2 saved Hv.
  - cbn. auto.
  - cbn [fold_left fst snd].
    unfold Rev0.MessageResponse_field at 2 4, StatusResponse_field at 2 4.
    destruct (json.equalFold "Status" k).
    + rewrite Hv. destruct (json.store j (Status v2) saved) as [x saved'].
      apply IH. reflexivity.
    + apply IH. exact Hv.
Qed.

(** A body decodes into MessageResponse exactly when it decodes into
    the status struct, with the same Status; when it does not, the two
    errors are of the same kind. *)
Lemma status_decode_agree (body : string) :
  Rev0.Status (fst (json.Unmarshal body (json.zero : Rev0.MessageResponse)))
  = Status (fst (json.Unmarshal body (json.zero : StatusResponse)))
  /\ match snd (json.Unmarshal body (json.zero : Rev0.MessageResponse)),
           snd (json.Unmarshal body (json.zero : StatusResponse)) with
     | None, None => True
     | Some e0, Some e2 => same_kind e0 e2
     | _, _ => False
     end.
Proof.
  unfold json.Unmarshal. destruct (json.parse body) as [j |]; [| cbn; auto].
  destruct j as [| b | lit | str | elems | members]; try (cbn; auto; fail).
  unfold json.store, json.zero, Rev0.MessageResponse_Target, StatusResponse_Target,
    json.store_struct.
  destruct (status_members_agree members {| Rev0.Status := EmptyString |}
              {| Status := EmptyString |} None eq_refl) as [Hs He].
  split; [exact Hs |]. rewrite He.
  destruct (snd (fold_left _ members ({| Status := EmptyString |}, None))) as [e |];
    [| exact I].
  destruct e; cbn; auto.
Qed.

(** X9: for a token of letters, digits and [-_.~], PostMessage of the
    first revision and PostMessage of the current one, on a Client made
    by NewClient and without AuthTest, make the same call and succeed
    on the same replies.  The validation error and the error of a
    failed call or read are the same in both; on a body that does not
    decode both return an error of the decoder of the same kind; on a
    status other than sent the first returns its fixed error and the
    current one what getError makes of the body of the reply. *)
Theorem X9_PostMessage_revisions (server : http.request -> http.reply)
    (req : Rev0.MessageRequest) (authToken : string) (calls : list http.request) :
  plain authToken = true ->
  trace (snd (Rev0.PostMessage server req
                {| self := {| Rev0.AuthToken := authToken |}; trace := calls |}))
  = trace (snd (Rev2.PostMessage server (upgrade false req)
                  {| self := Rev2.NewClient authToken; trace := calls |}))
  /\ (fst (Rev0.PostMessage server req
             {| self := {| Rev0.AuthToken := authToken |}; trace := calls |}) = None
      <-> fst (Rev2.PostMessage server (upgrade false req)
                 {| self := Rev2.NewClient authToken; trace := calls |}) = None)
  /\ (forall e,
        e = errors_New required_fields_text \/ (exists text, e = net_error text) ->
        (fst (Rev0.PostMessage server req
                {| self := {| Rev0.AuthToken := authToken |}; trace := calls |}) = Some e
         <-> fst (Rev2.PostMessage server (upgrade false req)
                    {| self := Rev2.NewClient authToken; trace := calls |}) = Some e))
  /\ (forall e0,
        fst (Rev0.PostMessage server req
               {| self := {| Rev0.AuthToken := authToken |}; trace := calls |})
        = Some (json_error e0) ->
        exists e2,
          fst (Rev2.PostMessage server (upgrade false req)
                 {| self := Rev2.NewClient authToken; trace := calls |})
          = Some (json_error e2)
          /\ same_kind e0 e2)
  /\ (forall status body,
        answered server {| self := Rev2.NewClient authToken; trace := calls |}
          (snd (Rev2.PostMessage server (upgrade false req)
                  {| self := Rev2.NewClient authToken; trace := calls |}))
          (http.Response status body) ->
        fst (Rev0.PostMessage server req
               {| self := {| Rev0.AuthToken := authToken |}; trace := calls |})
        = Some (errors_New not_sent_text) ->
        fst (Rev2.PostMessage server (upgrade false req)
               {| self := Rev2.NewClient authToken; trace := calls |})
        = Rev2.getError body).
Proof.
  intros Hplain.
  assert (Hkind : forall e b,
             e = errors_New required_fields_text \/ (exists text, e = net_error text) ->
             Rev2.getError b <> Some e /\ Some (errors_New not_sent_text) <> Some e).
  { intros e b He. split.
    - unfold Rev2.getError.
      destruct (json.Unmarshal b json.zero) as [r [err |]];
        destruct He as [-> | [text ->]]; discriminate.
    - destruct He as [-> | [text ->]]; discriminate. }
  unfold Rev0.PostMessage, Rev2.PostMessage, Rev2.NewClient. run_go.
  change (Rev2.urlValuesFromMessageRequest (upgrade false req))
    with (Rev0.urlValuesFromRequest req).
  unfold Rev0.baseURL, Rev2.defaultBaseURL.
  cbn [len String.length Nat.eqb Rev2.BaseURL Rev2.AuthToken Rev0.AuthToken
       Rev2.AuthTest upgrade fst snd self trace].
  rewrite (QueryEscape_plain authToken Hplain).
  destruct (Rev0.urlValuesFromRequest req) as [payload [err |]];
    cbn [fst snd self trace].
  { split; [reflexivity |]. split; [tauto |]. split; [tauto |].
    split; [intros e0 E; eexists; split; [exact E | destruct e0; cbn; auto] |].
    intros status body (r & Ht & _). cbn in Ht.
    apply (f_equal (@length _)) in Ht. rewrite length_app in Ht. cbn in Ht. lia. }
  set (rq := http.PostForm _ payload).
  destruct (server rq) as [text | code text | code body] eqn:Hrep;
    cbn [fst snd self trace].
  1, 2: split; [reflexivity |]; split; [tauto |]; split; [tauto |];
    split; [intros e0 E; discriminate E | intros status body _ E; discriminate E].
  pose proof (status_decode_agree body) as [Hstatus Herr].
  destruct (json.Unmarshal body (json.zero : Rev0.MessageResponse)) as [r0 [e0 |]];
    destruct (json.Unmarshal body (json.zero : StatusResponse)) as [r2 [e2 |]];
    cbn [fst snd] in Hstatus, Herr; try contradiction; cbn [fst snd self trace].
  - split; [reflexivity |]. split; [split; discriminate |]. split; [| split].
    + intros e He. split; intros [= <-]; destruct He as [E | [text E]]; discriminate E.
    + intros e [= <-]. eexists. split; [reflexivity | exact Herr].
    + intros status body' _ E. discriminate E.
  - rewrite Hstatus.
    destruct (negb (String.eqb (Status r2) ResponseStatusSent));
      cbn [fst snd self trace].
    + split; [reflexivity |]. split; [| split; [| split]].
      * split; [discriminate |]. intros Hn.
        destruct (getError_not_nil body) as [e He]. congruence.
      * intros e He. destruct (Hkind e body He) as [Hget Hfix].
        split; intros E; contradiction.
      * intros e E. discriminate E.
      * intros status body' Hans _. apply answered_call in Hans.
        rewrite Hrep in Hans. injection Hans as _ <-. reflexivity.
    + split; [reflexivity |]. split; [tauto |]. split; [| split].
      * intros e He. split; intros E; discriminate E.
      * intros e E. discriminate E.
      * intros status body' _ E. discriminate E.
Qed.

(** X9 at the token s3cr3t, on the body of a sent message and on a body
    with a status other than sent. *)
Lemma X9_PostMessage_revisions_witness :
  (fst (Rev0.PostMessage (always 200 sent_body) first_request first_world) = None
   <-> fst (Rev2.PostMessage (always 200 sent_body) (upgrade false first_request)
              {| self := Rev2.NewClient "s3cr3t"; trace := [] |}) = None)
  /\ fst (Rev2.PostMessage (always 200 queued_body) (upgrade false first_request)
            {| self := Rev2.NewClient "s3cr3t"; trace := [] |})
     = Rev2.getError queued_body.
Proof.
  split.
  - destruct (X9_PostMessage_revisions (always 200 sent_body) first_request "s3cr3t" [])
      as (_ & Hnil & _).
    + vm_compute. reflexivity.
    + exact Hnil.
  - destruct (X9_PostMessage_revisions (always 200 queued_body) first_request "s3cr3t" [])
      as (_ & _ & _ & _ & Hget).
    + vm_compute. reflexivity.
    + apply (Hget 200%Z queued_body).
      * eexists. split; [vm_compute; reflexivity | reflexivity].
      * vm_compute. reflexivity.
Defined.

Example PostMessage_revisions_top_level_array :
  fst (Rev0.PostMessage (always 200 "[]") first_request first_world)
  = Some (json_error (json.UnmarshalTypeError "array" "hipchat.MessageResponse"))
  /\ fst (Rev2.PostMessage (always 200 "[]") (upgrade false first_request)
            {| self := Rev2.NewClient "s3cr3t"; trace := [] |})
     = Some (json_error (json.UnmarshalTypeError "array" "struct { Status string }")).
Proof. split; vm_compute; reflexivity. Qed.

(** ** RoomHistory on status 200 *)

(** X10: on status 200 RoomHistory returns the decoded Messages without
    error when the body decodes into the messages struct, no messages
    and the error of the decoder when it does not, the empty list for
    a body that parses as an object with no messages member, and the
    syntax error for a body nested deeper than the scanner allows. *)
Theorem X10_RoomHistory_OK {Message_t : Type} `{json.Target Message_t}
    (server : http.request -> http.reply) (id date tz : string)
    (w : World Rev2.Client) (body : string) :
  answered server w
    (snd (Rev2.RoomHistory (Message_t := Message_t) server id date tz w))
    (http.Response 200 body) ->
  (forall msgResp : Rev2.MessagesResponse,
      json.Unmarshal body json.zero = (msgResp, None) ->
      fst (Rev2.RoomHistory (Message_t := Message_t) server id date tz w)
      = (json.elems (Rev2.Messages msgResp), None))
  /\ (forall (msgResp : Rev2.MessagesResponse) (err : json.error),
      json.Unmarshal body json.zero = (msgResp, Some err) ->
      fst (Rev2.RoomHistory (Message_t := Message_t) server id date tz w)
      = ([], Some (json_error err)))
  /\ (forall members : list (string * json.value),
      json.parse body = Some (json.Object members) ->
      no_member "Messages" (json.Object members) ->
      fst (Rev2.RoomHistory (Message_t := Message_t) server id date tz w) = ([], None))
  /\ (body = deep_body ->
      fst (Rev2.RoomHistory (Message_t := Message_t) server id date tz w)
      = ([], Some (json_error json.SyntaxError))).
Proof.
  intros Hans. rewrite (RoomHistory_any_reply server id date tz w _ Hans).
  change (negb (200 =? http.StatusOK)%Z) with false. cbn iota.
  split; [| split; [| split]].
  - intros msgResp Hm. rewrite Hm. reflexivity.
  - intros msgResp err Hm. rewrite Hm. reflexivity.
  - intros members Hp Hno. unfold json.Unmarshal. rewrite Hp.
    change (json.store (json.Object members) (json.zero : Rev2.MessagesResponse) None)
      with (json.store_struct
              ("struct { Messages []" ++ json.type_name (A := Message_t) ++ " }")
              Rev2.MessagesResponse_field
              (json.Object members) (json.zero : Rev2.MessagesResponse) None).
    rewrite store_struct_skip; [reflexivity |].
    unfold no_member in Hno. eapply Forall_impl; [exact Hno |].
    intros [k j] Hk v' saved'. cbn [fst snd] in *.
    unfold Rev2.MessagesResponse_field. rewrite Hk. reflexivity.
  - intros ->. unfold json.Unmarshal. rewrite deep_body_no_parse. reflexivity.
Qed.

(** X10 with rooms standing for the messages. *)
Lemma X10_RoomHistory_OK_witness :
  map Name (fst (fst (Rev2.RoomHistory (Message_t := Room) (always 200 two_rooms_body)
                        "1" "2013-06-01" "UTC" fresh_world)))
  = ["Lobby"; "Den"]
  /\ fst (Rev2.RoomHistory (Message_t := Room) (always 200 "{}")
            "1" "2013-06-01" "UTC" fresh_world)
     = ([], None).
Proof.
  split.
  - destruct (X10_RoomHistory_OK (Message_t := Room) (always 200 two_rooms_body)
                "1" "2013-06-01" "UTC" fresh_world two_rooms_body)
      as (Hok & _).
    + eexists. split; [vm_compute; reflexivity | reflexivity].
    + erewrite Hok; [| vm_compute; reflexivity]. vm_compute. reflexivity.
  - destruct (X10_RoomHistory_OK (Message_t := Room) (always 200 "{}")
                "1" "2013-06-01" "UTC" fresh_world "{}")
      as (_ & _ & Hnone & _).
    + eexists. split; [vm_compute; reflexivity | reflexivity].
    + apply (Hnone []); [vm_compute; reflexivity | constructor].
Defined.

(** ** The query string *)

Lemma escaped_byte (c : ascii) :
  json.is_hex (url.upperhex (N.shiftr (byte_val c) 4)) = true
  /\ json.is_hex (url.upperhex (N.land (byte_val c) 15)) = true
  /\ ascii_of_N (json.hex_val (url.upperhex (N.shiftr (byte_val c) 4)) * 16
                 + json.hex_val (url.upperhex (N.land (byte_val c) 15))) = c.
Proof.
  destruct c as [[|] [|] [|] [|] [|] [|] [|] [|]]; repeat split; vm_compute; reflexivity.
Qed.

Lemma unescaped_byte (c : ascii) :
  url.shouldEscape c = false -> Ascii.eqb c "%" = false /\ Ascii.eqb c "+" = false.
Proof.
  destruct c as [[|] [|] [|] [|] [|] [|] [|] [|]]; vm_compute; intros E;
    first [discriminate E | split; reflexivity].
Qed.

(** Unescaping what [QueryEscape] wrote gives the text back. *)
Lemma QueryUnescape_QueryEscape (s : string) :
  QueryUnescape (url.QueryEscape s) = Some s.
Proof.
  induction s as [| c s IH]; [reflexivity |].
  rewrite QueryEscape_cons.
  destruct (Ascii.eqb_spec c " ") as [-> | Hsp].
  { cbn [QueryUnescape]. change (Ascii.eqb "+" "%") with false.
    change (Ascii.eqb "+" "+") with true. cbn iota. rewrite IH. reflexivity. }
  destruct (url.shouldEscape c) eqn:E.
  - destruct (escaped_byte c) as (H1 & H2 & H3).
    cbn [QueryUnescape]. change (Ascii.eqb "%" "%") with true. cbn iota.
    rewrite H1, H2, IH, H3. reflexivity.
  - destruct (unescaped_byte c E) as (Hp & Hq).
    cbn [QueryUnescape]. rewrite Hp, Hq, IH. reflexivity.
Qed.

Lemma QueryEscape_injective (s t : string) :
  url.QueryEscape s = url.QueryEscape t -> s = t.
Proof.
  intros E. pose proof (QueryUnescape_QueryEscape s) as Hs.
  rewrite E, QueryUnescape_QueryEscape in Hs. congruence.
Qed.

Lemma url_safe_no_separator (c : ascii) :
  url_safe c = true -> negb (Ascii.eqb c "&") && negb (Ascii.eqb c "=") = true.
Proof.
  destruct c as [[|] [|] [|] [|] [|] [|] [|] [|]]; vm_compute; intros E;
    first [discriminate E | reflexivity].
Qed.

Lemma forallb_impl {A : Type} (p q : A -> bool) (l : list A) :
  (forall x, p x = true -> q x = true) -> forallb p l = true -> forallb q l = true.
Proof.
  intros Hpq H. apply forallb_forall. intros x Hx.
  apply Hpq. revert x Hx. apply forallb_forall. exact H.
Qed.

Lemma QueryEscape_no_separator (s : string) : no_separator (url.QueryEscape s) = true.
Proof.
  unfold no_separator.
  apply (forallb_impl url_safe); [apply url_safe_no_separator | apply QueryEscape_safe].
Qed.

Lemma split_on_field (s : string) :
  forallb (fun c => negb (Ascii.eqb c "&")) (list_ascii_of_string s) = true ->
  split_on "&" s = [s].
Proof.
  induction s as [| c s IH]; [reflexivity |].
  cbn [list_ascii_of_string forallb split_on]. intros H.
  apply andb_prop in H as [Hc Hs].
  destruct (Ascii.eqb c "&"); [discriminate |]. rewrite (IH Hs). reflexivity.
Qed.

Lemma split_on_cons (s rest : string) :
  forallb (fun c => negb (Ascii.eqb c "&")) (list_ascii_of_string s) = true ->
  split_on "&" (s ++ String "&" rest) = s :: split_on "&" rest.
Proof.
  induction s as [| c s IH]; [reflexivity |].
  cbn [list_ascii_of_string forallb]. intros H.
  apply andb_prop in H as [Hc Hs].
  change (String c s ++ String "&" rest) with (String c (s ++ String "&" rest)).
  cbn [split_on]. destruct (Ascii.eqb c "&"); [discriminate |].
  rewrite (IH Hs). reflexivity.
Qed.

(** A parameter [name=value] with an escaped value has no [&]. *)
Lemma parameter_no_amp (name value : string) :
  forallb (fun c => negb (Ascii.eqb c "&")) (list_ascii_of_string name) = true ->
  forallb (fun c => negb (Ascii.eqb c "&"))
          (list_ascii_of_string (name ++ url.QueryEscape value)) = true.
Proof.
  intros Hn. induction name as [| c name IH].
  - cbn [String.append].
    apply (forallb_impl (fun c => negb (Ascii.eqb c "&") && negb (Ascii.eqb c "=")));
      [| apply QueryEscape_no_separator].
    intros x Hx. apply andb_prop in Hx as [Hx _]. exact Hx.
  - cbn [list_ascii_of_string forallb] in Hn. apply andb_prop in Hn as [Hc Hn].
    change (String c name ++ url.QueryEscape value)
      with (String c (name ++ url.QueryEscape value)).
    cbn [list_ascii_of_string forallb]. rewrite Hc, (IH Hn). reflexivity.
Qed.

Lemma append_assoc (a b c : string) : (a ++ b) ++ c = a ++ (b ++ c).
Proof.
  induction a as [| x a IH]; [reflexivity |].
  change (String x ((a ++ b) ++ c) = String x (a ++ (b ++ c))).
  rewrite IH. reflexivity.
Qed.

Lemma append_inv_head (a b c : string) : a ++ b = a ++ c -> b = c.
Proof.
  induction a as [| x a IH]; [auto |].
  change (String x (a ++ b) = String x (a ++ c) -> b = c).
  intros [= E]. auto.
Qed.

Lemma history_query_fields (token id date tz : string) :
  split_on "&" ("auth_token=" ++ url.QueryEscape token
                ++ "&room_id=" ++ url.QueryEscape id
                ++ "&date=" ++ url.QueryEscape date
                ++ "&timezone=" ++ url.QueryEscape tz)
  = ["auth_token=" ++ url.QueryEscape token; "room_id=" ++ url.QueryEscape id;
     "date=" ++ url.QueryEscape date; "timezone=" ++ url.QueryEscape tz].
Proof.
  rewrite <- (append_assoc "auth_token=" (url.QueryEscape token)).
  change ("&room_id=" ++ url.QueryEscape id ++ "&date=" ++ url.QueryEscape date
          ++ "&timezone=" ++ url.QueryEscape tz)
    with (String "&" ("room_id=" ++ url.QueryEscape id ++ "&date="
                      ++ url.QueryEscape date ++ "&timezone=" ++ url.QueryEscape tz)).
  rewrite split_on_cons by (apply parameter_no_amp; reflexivity).
  rewrite <- (append_assoc "room_id=" (url.QueryEscape id)).
  change ("&date=" ++ url.QueryEscape date ++ "&timezone=" ++ url.QueryEscape tz)
    with (String "&" ("date=" ++ url.QueryEscape date ++ "&timezone="
                      ++ url.QueryEscape tz)).
  rewrite split_on_cons by (apply parameter_no_amp; reflexivity).
  rewrite <- (append_assoc "date=" (url.QueryEscape date)).
  change ("&timezone=" ++ url.QueryEscape tz)
    with (String "&" ("timezone=" ++ url.QueryEscape tz)).
  rewrite split_on_cons by (apply parameter_no_amp; reflexivity).
  rewrite split_on_field by (apply parameter_no_amp; reflexivity).
  reflexivity.
Qed.

(** X11: the URL of RoomHistory is the BaseURL, the path and a query of
    exactly four fields, auth_token, room_id, date and timezone in this
    order, whatever bytes the token and the arguments hold: each value
    is written without [&] and [=], and unescapes to the argument. *)
Theorem X11_history_query {Message_t : Type} `{json.Target Message_t}
    (server : http.request -> http.reply) (id date tz : string)
    (w : World Rev2.Client) :
  exists query,
    trace (snd (Rev2.RoomHistory (Message_t := Message_t) server id date tz w))
    = (trace w ++
       [http.Get (Rev2.BaseURL
                    (self (snd (Rev2.RoomHistory (Message_t := Message_t)
                                  server id date tz w)))
                  ++ "/rooms/history?" ++ query)])%list
    /\ split_on "&" query
       = ["auth_token=" ++ url.QueryEscape (Rev2.AuthToken (self w));
          "room_id=" ++ url.QueryEscape id;
          "date=" ++ url.QueryEscape date;
          "timezone=" ++ url.QueryEscape tz]
    /\ Forall (fun value =>
                 no_separator (url.QueryEscape value) = true
                 /\ QueryUnescape (url.QueryEscape value) = Some value)
              [Rev2.AuthToken (self w); id; date; tz].
Proof.
  exists ("auth_token=" ++ url.QueryEscape (Rev2.AuthToken (self w))
          ++ "&room_id=" ++ url.QueryEscape id
          ++ "&date=" ++ url.QueryEscape date
          ++ "&timezone=" ++ url.QueryEscape tz).
  rewrite RoomHistory_world. cbn [self trace].
  assert (Htok : Rev2.AuthToken (defaulted (self w)) = Rev2.AuthToken (self w)).
  { unfold defaulted. destruct (len (Rev2.BaseURL (self w)) =? 0)%nat; reflexivity. }
  split; [unfold history_uri; rewrite Htok; reflexivity |].
  split; [apply history_query_fields |].
  repeat constructor;
    first [apply QueryEscape_no_separator | apply QueryUnescape_QueryEscape].
Qed.

Example history_query_reserved_bytes :
  trace (snd (Rev2.RoomHistory (Message_t := Room) (always 200 "{}")
                "a&b" "2013-06-01&x=1" "Europe/Rome"
                {| self := Rev2.NewClient "t=1&u"; trace := [] |}))
  = [http.Get ("https://api.hipchat.com/v1/rooms/history?auth_token=t%3D1%26u"
               ++ "&room_id=a%26b&date=2013-06-01%26x%3D1&timezone=Europe%2FRome")].
Proof. vm_compute. reflexivity. Qed.

(** X12: two calls of RoomHistory on Clients with the same BaseURL go
    to the same URL only when the tokens, the room ids, the dates and
    the time zones are the same. *)
Theorem X12_history_url_injective {Message_t : Type} `{json.Target Message_t}
    (server1 server2 : http.request -> http.reply)
    (id1 date1 tz1 id2 date2 tz2 : string) (w1 w2 : World Rev2.Client) :
  trace w1 = trace w2 ->
  Rev2.BaseURL (self w1) = Rev2.BaseURL (self w2) ->
  trace (snd (Rev2.RoomHistory (Message_t := Message_t) server1 id1 date1 tz1 w1))
  = trace (snd (Rev2.RoomHistory (Message_t := Message_t) server2 id2 date2 tz2 w2)) ->
  Rev2.AuthToken (self w1) = Rev2.AuthToken (self w2)
  /\ id1 = id2 /\ date1 = date2 /\ tz1 = tz2.
Proof.
  intros Ht Hb. rewrite !RoomHistory_world. cbn [trace]. rewrite Ht.
  intros E. apply app_inv_head in E. injection E as E.
  assert (Hbase : Rev2.BaseURL (defaulted (self w1)) = Rev2.BaseURL (defaulted (self w2))).
  { unfold defaulted. rewrite Hb.
    destruct (len (Rev2.BaseURL (self w2)) =? 0)%nat; [reflexivity | exact Hb]. }
  assert (Htok : forall c, Rev2.AuthToken (defaulted c) = Rev2.AuthToken c).
  { intros c. unfold defaulted. destruct (len (Rev2.BaseURL c) =? 0)%nat; reflexivity. }
  unfold history_uri in E. rewrite Hbase, !Htok in E.
  apply append_inv_head in E.
  change ("/rooms/history?auth_token=" ++ ?x) with ("/rooms/history?" ++ "auth_token=" ++ x)
    in E.
  apply (append_inv_head "/rooms/history?") in E.
  apply (f_equal (split_on "&")) in E. rewrite !history_query_fields in E.
  injection E as E1 E2 E3 E4.
  repeat split; apply QueryEscape_injective; assumption.
Qed.

(** X12 at two calls with the same arguments. *)
Lemma X12_history_url_injective_witness :
  Rev2.AuthToken (self fresh_world) = Rev2.AuthToken (self bare_world)
  /\ "1" = "1" /\ "2013-06-01" = "2013-06-01" /\ "UTC" = "UTC".
Proof.
  apply (X12_history_url_injective (Message_t := Room)
           (always 200 "{}") (always 401 unauthorized_body)
           "1" "2013-06-01" "UTC" "1" "2013-06-01" "UTC"
           {| self := Rev2.NewClient "s3cr3t token"; trace := [] |}
           {| self := Rev2.NewClient "s3cr3t token"; trace := [] |});
    reflexivity.
Defined.

(** X13: the URL of RoomList has the one field auth_token in its query,
    and the URL of PostMessage that field, followed by auth_test=true
    exactly when AuthTest is set; the value of auth_token is the
    escaped token, so no byte of the token makes a further field. *)
Theorem X13_token_query (server : http.request -> http.reply)
    (req : Rev2.MessageRequest) (w : World Rev2.Client) :
  required_present req ->
  (exists query,
      trace (snd (Rev2.RoomList server w))
      = (trace w ++
         [http.Get (Rev2.BaseURL (self (snd (Rev2.RoomList server w)))
                    ++ "/rooms/list?" ++ query)])%list
      /\ split_on "&" query
         = ["auth_token=" ++ url.QueryEscape (Rev2.AuthToken (self w))])
  /\ (exists query payload,
        trace (snd (Rev2.PostMessage server req w))
        = (trace w ++
           [http.PostForm (Rev2.BaseURL (self (snd (Rev2.PostMessage server req w)))
                           ++ "/rooms/message?" ++ query) payload])%list
        /\ split_on "&" query
           = ("auth_token=" ++ url.QueryEscape (Rev2.AuthToken (self w)))
             :: (if Rev2.AuthTest req then ["auth_test=true"] else [])).
Proof.
  intros Hreq.
  assert (Htok : Rev2.AuthToken (defaulted (self w)) = Rev2.AuthToken (self w)).
  { unfold defaulted. destruct (len (Rev2.BaseURL (self w)) =? 0)%nat; reflexivity. }
  split.
  - exists ("auth_token=" ++ url.QueryEscape (Rev2.AuthToken (self w))).
    rewrite RoomList_world. cbn [self trace]. unfold list_uri. rewrite Htok.
    split; [reflexivity |]. apply split_on_field. apply parameter_no_amp. reflexivity.
  - pose proof (urlValues_present req Hreq) as Hv.
    destruct (Rev2.urlValuesFromMessageRequest req) as [payload err] eqn:Hp.
    cbn in Hv. subst err.
    exists ("auth_token=" ++ url.QueryEscape (Rev2.AuthToken (self w))
            ++ (if Rev2.AuthTest req then "&auth_test=true" else EmptyString)),
           payload.
    rewrite PostMessage_world, Hp. cbn [self trace]. unfold message_uri. rewrite Htok.
    destruct (Rev2.AuthTest req).
    + split.
      * rewrite !append_assoc. reflexivity.
      * rewrite <- (append_assoc "auth_token=").
        change "&auth_test=true" with (String "&" "auth_test=true").
        rewrite split_on_cons by (apply parameter_no_amp; reflexivity).
        reflexivity.
    + split.
      * replace (url.QueryEscape (Rev2.AuthToken (self w)) ++ EmptyString)
          with (url.QueryEscape (Rev2.AuthToken (self w))); [reflexivity |].
        generalize (url.QueryEscape (Rev2.AuthToken (self w))) as s.
        induction s as [| c s IH]; [reflexivity |].
        change (String c s = String c (s ++ EmptyString)). rewrite <- IH. reflexivity.
      * replace (url.QueryEscape (Rev2.AuthToken (self w)) ++ EmptyString)
          with (url.QueryEscape (Rev2.AuthToken (self w))).
        -- apply split_on_field. apply parameter_no_amp. reflexivity.
        -- generalize (url.QueryEscape (Rev2.AuthToken (self w))) as s.
           induction s as [| c s IH]; [reflexivity |].
           change (String c s = String c (s ++ EmptyString)). rewrite <- IH. reflexivity.
Qed.

(** X13 at the token a&b c and the request of the README with AuthTest. *)
Lemma X13_token_query_witness :
  (exists query,
      trace (snd (Rev2.RoomList (always 200 "{}")
                    {| self := Rev2.NewClient reserved_token; trace := [] |}))
      = [http.Get ("https://api.hipchat.com/v1" ++ "/rooms/list?" ++ query)]
      /\ split_on "&" query = ["auth_token=a%26b+c"])
  /\ (exists query payload,
        trace (snd (Rev2.PostMessage (always 200 "{}") auth_request
                      {| self := Rev2.NewClient reserved_token; trace := [] |}))
        = [http.PostForm ("https://api.hipchat.com/v1" ++ "/rooms/message?" ++ query)
             payload]
        /\ split_on "&" query = ["auth_token=a%26b+c"; "auth_test=true"]).
Proof.
  apply (X13_token_query (always 200 "{}") auth_request
           {| self := Rev2.NewClient reserved_token; trace := [] |}).
  repeat split; discriminate.
Defined.

Example first_query_splits_token :
  split_on "&" ("auth_token=" ++ reserved_token) = ["auth_token=a"; "b c"].
Proof. vm_compute. reflexivity. Qed.

(** ** The JSON names of a Room *)

(** X14: a member whose key is the Go name of a tagged field of Room,
    in any case of letters, is not stored: RoomId, LastActive,
    Archived, Private, OwnerUserId and XMPPJabberId are filled from
    room_id, last_active, is_archived, is_private, owner_user_id and
    xmpp_jid only. *)
Theorem X14_Room_tags_replace_names (key : string) (j : json.value) (v : Room)
    (saved : option json.error) :
  existsb (fun name => json.equalFold name key) tagged_field_names = true ->
  Room_field key j v saved = (v, saved).
Proof.
  intros H. apply existsb_exists in H as (name & Hin & Hfold).
  unfold json.equalFold in Hfold. apply String.eqb_eq in Hfold.
  destruct v. unfold Room_field, json.equalFold. rewrite <- Hfold.
  unfold tagged_field_names in Hin. cbn [In] in Hin.
  repeat (destruct Hin as [<- | Hin]; [vm_compute; reflexivity |]).
  contradiction.
Qed.

(** X14 at the key roomid. *)
Lemma X14_Room_tags_replace_names_witness :
  Room_field "roomid" (json.Number "7") lobby None = (lobby, None).
Proof.
  apply (X14_Room_tags_replace_names "roomid" (json.Number "7") lobby None).
  vm_compute. reflexivity.
Defined.

Example RoomList_go_names_ignored :
  fst (Rev2.RoomList
         (always 200 (js "{'rooms':[{'RoomId':7,'Archived':true,'name':'Den'}]}"))
         fresh_world)
  = ([{| RoomId := 0; Name := "Den"; Topic := EmptyString; LastActive := 0;
         Created := 0; Archived := false; Private := false; OwnerUserId := 0;
         XMPPJabberId := EmptyString |}], None).
Proof. vm_compute. reflexivity. Qed.
